(** * Worker liveness registry on Redis: model and verification

    Shallow embedding of [pkg/worker_registry/redis/registry.go].  The
    registry keeps one JSON record per worker under [dago:workers:<id>] with a
    time-to-live, derives the [Unhealthy] status from the age of the last
    heartbeat, lists and aggregates workers and sweeps stale records.

    The Redis client, the clock, the logger and the stream consumer table are
    the registry's environment.  They are modelled by an explicit [World] that
    every operation threads through a small state monad. *)

From Stdlib Require Import ZArith Ascii String DecimalString List Bool Lia.
From stdpp Require Import base gmap strings list fin_maps.

Local Open Scope string_scope.
Local Open Scope Z_scope.

(** ** Go primitives *)

(** [int] is 64 bits wide on the platforms the registry runs on; arithmetic
    wraps around in two's complement. *)
Module GoInt.
Definition min_int : Z := - 2 ^ 63.
Definition max_int : Z := 2 ^ 63 - 1.
Definition wrap (z : Z) : Z := (z + 2 ^ 63) mod 2 ^ 64 - 2 ^ 63.
Definition add (a b : Z) : Z := wrap (a + b).
Definition in_range (z : Z) : Prop := min_int <= z <= max_int.
End GoInt.

(** Package [time].  An instant is a number of nanoseconds on the wall clock,
    a [Duration] is an int64 count of nanoseconds.  [Time.Sub] saturates at
    the ends of the int64 range. *)
Module time.
Definition Time : Type := Z.
Definition Duration : Type := Z.
Definition Millisecond : Duration := 1000000.
Definition Second : Duration := 1000000000.
Definition minDuration : Duration := - 2 ^ 63.
Definition maxDuration : Duration := 2 ^ 63 - 1.
Definition Sub (t u : Time) : Duration :=
  if maxDuration <? t - u then maxDuration
  else if t - u <? minDuration then minDuration
  else t - u.
End time.

(** [strings.Contains s substr]. *)
Fixpoint Contains (s substr : string) : bool :=
  if String.prefix substr s then true
  else match s with
       | EmptyString => false
       | String _ s' => Contains s' substr
       end.

(** Go [error] values as the registry builds and inspects them: the sentinel
    [redis.Nil], an error carrying only a message ([fmt.Errorf] without [%w],
    or a failure reported by a client), and an error wrapping its cause
    ([fmt.Errorf("...: %w", err)]). *)
Inductive error : Type :=
| redis_Nil
| errorString (msg : string)
| wrapError (prefix : string) (cause : error).

Fixpoint Error (e : error) : string :=
  match e with
  | redis_Nil => "redis: nil"
  | errorString msg => msg
  | wrapError prefix cause => (prefix ++ Error cause)%string
  end.

(** [err == redis.Nil]: identity with the sentinel; a wrapped [redis.Nil] is a
    different value. *)
Definition is_redis_Nil (e : error) : bool :=
  match e with
  | redis_Nil => true
  | _ => false
  end.

(** A Go result pair [(value, err)] with exactly one side meaningful. *)
Inductive Result (A : Type) : Type :=
| Ok (a : A)
| Err (e : error).
Arguments Ok {A} a.
Arguments Err {A} e.

(** ** Package [ports] (declared in dago-libs) *)

Definition WorkerType : Type := string.
Definition WorkerStatus : Type := string.

(** Modelled from the spec: [ports.WorkerInfo] is declared in dago-libs, which
    is not part of this repository.  The fields are those the registry reads
    and writes, which are also the fields of the spec's WorkerRecord. *)
Record WorkerInfo : Type := mkWorkerInfo {
  ID : string;
  Type_ : WorkerType;
  Status : WorkerStatus;
  RegisteredAt : time.Time;
  LastHeartbeat : time.Time;
  CurrentTask : string;
  PendingTasks : Z
}.

Definition set_Status (w : WorkerInfo) (s : WorkerStatus) : WorkerInfo :=
  mkWorkerInfo (ID w) (Type_ w) s (RegisteredAt w) (LastHeartbeat w)
               (CurrentTask w) (PendingTasks w).
Definition set_LastHeartbeat (w : WorkerInfo) (t : time.Time) : WorkerInfo :=
  mkWorkerInfo (ID w) (Type_ w) (Status w) (RegisteredAt w) t
               (CurrentTask w) (PendingTasks w).
Definition set_CurrentTask (w : WorkerInfo) (c : string) : WorkerInfo :=
  mkWorkerInfo (ID w) (Type_ w) (Status w) (RegisteredAt w) (LastHeartbeat w)
               c (PendingTasks w).
Definition set_PendingTasks (w : WorkerInfo) (n : Z) : WorkerInfo :=
  mkWorkerInfo (ID w) (Type_ w) (Status w) (RegisteredAt w) (LastHeartbeat w)
               (CurrentTask w) n.

Record WorkerFilter : Type := mkWorkerFilter {
  Types : list WorkerType;
  Statuses : list WorkerStatus;
  HealthyOnly : bool
}.

Record WorkerStats : Type := mkWorkerStats {
  StatsType : WorkerType;
  TotalWorkers : Z;
  IdleWorkers : Z;
  BusyWorkers : Z;
  UnhealthyWorkers : Z;
  TotalPendingTasks : Z
}.

(** What the registry takes from outside this repository without looking
    inside: the enumeration constants of [ports] and the JSON codec of
    [encoding/json] at type [ports.WorkerInfo].  The model is parametric in
    them. *)
Class Ports : Type := {
  WorkerTypeExecutor : WorkerType;
  WorkerTypeRouter : WorkerType;
  WorkerStatusIdle : WorkerStatus;
  WorkerStatusBusy : WorkerStatus;
  WorkerStatusUnhealthy : WorkerStatus;
  json_Marshal : WorkerInfo -> Result string;
  json_Unmarshal : string -> Result WorkerInfo
}.

(** ** The environment *)

(** A log line of the [zap] logger. *)
Inductive Level : Type := InfoLevel | WarnLevel.

Inductive Field : Type :=
| zap_String (key val : string)
| zap_Duration (key : string) (d : time.Duration)
| zap_Error (err : error).

Record LogEntry : Type := mkLogEntry {
  level : Level;
  message : string;
  fields : list Field
}.

(** One consumer of a stream consumer group, as [XINFO CONSUMERS] reports
    it. *)
Record XInfoConsumer : Type := mkXInfoConsumer {
  Name : string;
  Pending : Z
}.

(** A stored value with the instant at which the store drops it. *)
Record Entry : Type := mkEntry {
  value : string;
  expires : time.Time
}.

(** The world an operation runs in: the clock, the key space of the store,
    the transport failures the client will report (per command and key, per
    cursor for [SCAN]), the consumer tables of the streams, and the log
    written so far. *)
Record World : Type := mkWorld {
  clock : time.Time;
  kv : gmap string Entry;
  get_fault : string -> option error;
  set_fault : string -> option error;
  del_fault : string -> option error;
  scan_fault : nat -> option error;
  xinfo : string -> string -> Result (list XInfoConsumer);
  logs : list LogEntry
}.

Definition with_kv (w : World) (m : gmap string Entry) : World :=
  mkWorld (clock w) m (get_fault w) (set_fault w) (del_fault w)
          (scan_fault w) (xinfo w) (logs w).
Definition with_logs (w : World) (l : list LogEntry) : World :=
  mkWorld (clock w) (kv w) (get_fault w) (set_fault w) (del_fault w)
          (scan_fault w) (xinfo w) l.
Definition with_clock (w : World) (t : time.Time) : World :=
  mkWorld t (kv w) (get_fault w) (set_fault w) (del_fault w)
          (scan_fault w) (xinfo w) (logs w).

(** State monad over the world. *)
Definition M (A : Type) : Type := World -> A * World.
Definition ret {A} (a : A) : M A := fun w => (a, w).
Definition bind {A B} (c : M A) (k : A -> M B) : M B :=
  fun w => let (a, w') := c w in k a w'.

Declare Scope go_scope.
Delimit Scope go_scope with go.
Notation "'do' x <- c ; k" := (bind c (fun x => k))
  (at level 10, x name, c at level 100, k at level 200) : go_scope.
Notation "'exec' c ; k" := (bind c (fun _ => k))
  (at level 10, c at level 100, k at level 200) : go_scope.
Local Open Scope go_scope.

(** *** Clock and logger *)

Definition time_Now : M time.Time := fun w => (clock w, w).

(** [time.Since(t)] is [time.Now().Sub(t)]. *)
Definition time_Since (t : time.Time) : M time.Duration :=
  do now <- time_Now; ret (time.Sub now t).

Definition logger_log (lv : Level) (msg : string) (fs : list Field) : M unit :=
  fun w => (tt, with_logs w (logs w ++ [mkLogEntry lv msg fs])).
Definition logger_Info := logger_log InfoLevel.
Definition logger_Warn := logger_log WarnLevel.

(** *** The Redis client *)

(** The value a read sees under [key]: present and not yet expired. *)
Definition live (w : World) (key : string) : option string :=
  match kv w !! key with
  | Some en => if clock w <? expires en then Some (value en) else None
  | None => None
  end.

(** [client.Get(ctx, key).Bytes()]. *)
Definition client_Get (key : string) : M (Result string) :=
  fun w =>
    match get_fault w key with
    | Some e => (Err e, w)
    | None =>
        match live w key with
        | Some data => (Ok data, w)
        | None => (Err redis_Nil, w)
        end
    end.

(** [client.Set(ctx, key, data, ttl).Err()]: on success the entry replaces
    whatever was stored and expires [ttl] from now.  That is what the store
    does with a [ttl] of a positive whole number of milliseconds, which the
    client passes on as it is ([PX], or [EX] for whole seconds).  The client
    rounds any other positive [ttl] down to whole milliseconds, one at
    least, and asks for no expiry at all when [ttl] is zero or less; and the
    store, which counts in milliseconds, may keep a key for up to one
    millisecond past its deadline.  The properties that speak of the expiry
    instant are therefore stated for [whole_milliseconds] below. *)
Definition client_Set (key data : string) (ttl : time.Duration) : M (option error) :=
  fun w =>
    match set_fault w key with
    | Some e => (Some e, w)
    | None => (None, with_kv w (<[key := mkEntry data (clock w + ttl)]> (kv w)))
    end.

(** [client.Del(ctx, key).Err()]: deleting a missing key is not an error. *)
Definition client_Del (key : string) : M (option error) :=
  fun w =>
    match del_fault w key with
    | Some e => (Some e, w)
    | None => (None, with_kv w (delete key (kv w)))
    end.

(** Glob match for the patterns the registry uses: literal characters
    followed by a final [*]. *)
Fixpoint glob (pattern key : string) : bool :=
  match pattern with
  | EmptyString => match key with EmptyString => true | _ => false end
  | String c p =>
      if (Ascii.eqb c "*"%char && String.eqb p "")%bool then true
      else match key with
           | EmptyString => false
           | String d k => (Ascii.eqb c d && glob p k)%bool
           end
  end.

Definition scan_view (w : World) (pattern : string) : list string :=
  filter (fun k => glob pattern k = true /\ is_Some (live w k))
         (map fst (map_to_list (kv w))).

(** [client.Scan(ctx, cursor, pattern, count).Result()].  The cursor is the
    offset into the matching live keys; the reply carries the next [count]
    of them and the next cursor, which is 0 once the iteration is complete.
    Every matching live key is reported exactly once: the key space is taken
    not to be rehashed while the iteration runs, when [SCAN] may report a
    key a second time. *)
Definition client_Scan (cursor : nat) (pattern : string) (count : nat)
  : M (Result (list string * nat)) :=
  fun w =>
    match scan_fault w cursor with
    | Some e => (Err e, w)
    | None =>
        let all := scan_view w pattern in
        let page := take count (drop cursor all) in
        let next := if (cursor + count <? length all)%nat
                    then (cursor + count)%nat else 0%nat in
        (Ok (page, next), w)
    end.

(** [client.XInfoConsumers(ctx, stream, group).Result()]. *)
Definition client_XInfoConsumers (stream group : string)
  : M (Result (list XInfoConsumer)) :=
  fun w => (xinfo w stream group, w).

(** ** The registry *)

Definition defaultWorkerTTL : time.Duration := 30 * time.Second.
Definition workerKeyPrefix : string := "dago:workers:".
Definition executorStreamKey : string := "executor.work".
Definition routerStreamKey : string := "router.work".
Definition executorConsumerGroup : string := "executor-workers".
Definition routerConsumerGroup : string := "router-workers".

(** The [client] and [logger] fields of the Go struct are handles into the
    [World]; the value itself carries the configured time-to-live. *)
Record Registry : Type := mkRegistry {
  ttl : time.Duration
}.

Definition NewRegistry : Registry := mkRegistry defaultWorkerTTL.
Definition NewRegistryWithTTL (ttl : time.Duration) : Registry := mkRegistry ttl.

Definition getWorkerKey (workerID : string) : string :=
  (workerKeyPrefix ++ workerID)%string.

(** The [for] loop of [scanKeys]: one [SCAN] per iteration until the cursor
    comes back as 0.  [fuel] bounds the number of iterations. *)
Fixpoint scanKeys_loop (fuel : nat) (pattern : string) (cursor : nat)
    (keys : list string) : M (option (Result (list string))) :=
  match fuel with
  | O => ret None
  | S fuel' =>
      do res <- client_Scan cursor pattern 100;
      match res with
      | Err err => ret (Some (Err err))
      | Ok (scanKeys, cursor') =>
          let keys := (keys ++ scanKeys)%list in
          if (cursor' =? 0)%nat then ret (Some (Ok keys))
          else scanKeys_loop fuel' pattern cursor' keys
      end
  end.

(** One more iteration than there are keys to report is always enough
    ([scanKeys_loop_fuel] below), so the last branch is never taken. *)
Definition scanKeys (pattern : string) : M (Result (list string)) :=
  fun w =>
    match scanKeys_loop (S (length (scan_view w pattern))) pattern 0 [] w with
    | (Some res, w') => (res, w')
    | (None, w') => (Err (errorString "scan: cursor never returned to 0"), w')
    end.

(** The two membership loops of [matchesFilter], each leaving at the first
    match. *)
Fixpoint typeMatch (t0 : WorkerType) (types : list WorkerType) : bool :=
  match types with
  | [] => false
  | t :: rest => if String.eqb t0 t then true else typeMatch t0 rest
  end.

Fixpoint statusMatch (s0 : WorkerStatus) (statuses : list WorkerStatus) : bool :=
  match statuses with
  | [] => false
  | s :: rest => if String.eqb s0 s then true else statusMatch s0 rest
  end.

Definition matchesFilter (worker : WorkerInfo) (filter : WorkerFilter)
    (isHealthy : bool) : bool :=
  if ((0 <? length (Types filter))%nat
      && negb (typeMatch (Type_ worker) (Types filter)))%bool then false
  else if ((0 <? length (Statuses filter))%nat
           && negb (statusMatch (Status worker) (Statuses filter)))%bool then false
  else if (HealthyOnly filter && negb isHealthy)%bool then false
  else true.

(** The search loop of [getPendingTasksForWorker] over the consumers. *)
Fixpoint findPending (consumers : list XInfoConsumer) (workerID : string) : Z :=
  match consumers with
  | [] => 0
  | consumer :: rest =>
      if String.eqb (Name consumer) workerID then Pending consumer
      else findPending rest workerID
  end.

Section Registry.
Context `{Ports}.

Definition inferWorkerType (workerID : string) : WorkerType :=
  if Contains workerID "executor" then WorkerTypeExecutor
  else if Contains workerID "router" then WorkerTypeRouter
  else WorkerTypeExecutor.

Definition getPendingTasksForWorker (workerID : string)
    (workerType : WorkerType) : M (Result Z) :=
  let query (streamKey consumerGroup : string) : M (Result Z) :=
    do res <- client_XInfoConsumers streamKey consumerGroup;
    match res with
    | Err err =>
        if Contains (Error err) "NOGROUP" then ret (Ok 0)
        else ret (Err err)
    | Ok consumers => ret (Ok (findPending consumers workerID))
    end in
  if String.eqb workerType WorkerTypeExecutor
  then query executorStreamKey executorConsumerGroup
  else if String.eqb workerType WorkerTypeRouter
  then query routerStreamKey routerConsumerGroup
  else ret (Ok 0).

Definition Register (r : Registry) (worker : WorkerInfo) : M (option error) :=
  let key := getWorkerKey (ID worker) in
  match json_Marshal worker with
  | Err err => ret (Some (wrapError "failed to marshal worker info: " err))
  | Ok data =>
      do e <- client_Set key data (ttl r);
      match e with
      | Some err => ret (Some (wrapError "failed to register worker: " err))
      | None =>
          exec logger_Info "worker registered"
               [zap_String "worker_id" (ID worker);
                zap_String "type" (Type_ worker);
                zap_Duration "ttl" (ttl r)];
          ret None
      end
  end.

Definition Unregister (r : Registry) (workerID : string) : M (option error) :=
  let key := getWorkerKey workerID in
  do e <- client_Del key;
  match e with
  | Some err => ret (Some (wrapError "failed to unregister worker: " err))
  | None =>
      exec logger_Info "worker unregistered" [zap_String "worker_id" workerID];
      ret None
  end.

Definition GetWorker (r : Registry) (workerID : string) : M (Result WorkerInfo) :=
  let key := getWorkerKey workerID in
  do res <- client_Get key;
  match res with
  | Err err =>
      if is_redis_Nil err
      then ret (Err (errorString ("worker not found: " ++ workerID)%string))
      else ret (Err (wrapError "failed to get worker: " err))
  | Ok data =>
      match json_Unmarshal data with
      | Err err => ret (Err (wrapError "failed to unmarshal worker info: " err))
      | Ok worker =>
          do age <- time_Since (LastHeartbeat worker);
          if ttl r <? age
          then ret (Ok (set_Status worker WorkerStatusUnhealthy))
          else ret (Ok worker)
      end
  end.

Definition Heartbeat (r : Registry) (workerID : string)
    (status : WorkerStatus) (currentTask : string) : M (option error) :=
  let key := getWorkerKey workerID in
  do got <- GetWorker r workerID;
  do worker <-
    match got with
    | Err _ =>
        exec logger_Warn "heartbeat for unregistered worker, auto-registering"
             [zap_String "worker_id" workerID];
        let workerType := inferWorkerType workerID in
        do registeredAt <- time_Now;
        do lastHeartbeat <- time_Now;
        ret (mkWorkerInfo workerID workerType status registeredAt
                          lastHeartbeat currentTask 0)
    | Ok worker =>
        do now <- time_Now;
        ret (set_CurrentTask
               (set_LastHeartbeat (set_Status worker status) now) currentTask)
    end;
  do pending <- getPendingTasksForWorker workerID (Type_ worker);
  do worker <-
    match pending with
    | Err err =>
        exec logger_Warn "failed to get pending tasks"
             [zap_String "worker_id" workerID; zap_Error err];
        ret worker
    | Ok pendingTasks => ret (set_PendingTasks worker pendingTasks)
    end;
  match json_Marshal worker with
  | Err err => ret (Some (wrapError "failed to marshal worker info: " err))
  | Ok data =>
      do e <- client_Set key data (ttl r);
      match e with
      | Some err => ret (Some (wrapError "failed to update heartbeat: " err))
      | None => ret None
      end
  end.

Fixpoint ListWorkers_loop (r : Registry) (filter : WorkerFilter)
    (keys : list string) (workers : list WorkerInfo) : M (list WorkerInfo) :=
  match keys with
  | [] => ret workers
  | key :: rest =>
      do res <- client_Get key;
      match res with
      | Err err =>
          if is_redis_Nil err then ListWorkers_loop r filter rest workers
          else
            exec logger_Warn "failed to get worker"
                 [zap_String "key" key; zap_Error err];
            ListWorkers_loop r filter rest workers
      | Ok data =>
          match json_Unmarshal data with
          | Err err =>
              exec logger_Warn "failed to unmarshal worker"
                   [zap_String "key" key; zap_Error err];
              ListWorkers_loop r filter rest workers
          | Ok worker =>
              do age <- time_Since (LastHeartbeat worker);
              let isHealthy := age <=? ttl r in
              let worker :=
                if negb isHealthy then set_Status worker WorkerStatusUnhealthy
                else worker in
              if negb (matchesFilter worker filter isHealthy)
              then ListWorkers_loop r filter rest workers
              else ListWorkers_loop r filter rest (workers ++ [worker])%list
          end
      end
  end.

Definition ListWorkers (r : Registry) (filter : WorkerFilter)
    : M (Result (list WorkerInfo)) :=
  let pattern := (workerKeyPrefix ++ "*")%string in
  do scanned <- scanKeys pattern;
  match scanned with
  | Err err => ret (Err (wrapError "failed to scan worker keys: " err))
  | Ok keys =>
      do workers <- ListWorkers_loop r filter keys [];
      ret (Ok workers)
  end.

(** One turn of the aggregation loop: the [switch] on the status, then the
    running sum of pending tasks. *)
Definition stats_step (stats : WorkerStats) (worker : WorkerInfo) : WorkerStats :=
  let stats :=
    if String.eqb (Status worker) WorkerStatusIdle then
      mkWorkerStats (StatsType stats) (TotalWorkers stats)
        (GoInt.add (IdleWorkers stats) 1) (BusyWorkers stats)
        (UnhealthyWorkers stats) (TotalPendingTasks stats)
    else if String.eqb (Status worker) WorkerStatusBusy then
      mkWorkerStats (StatsType stats) (TotalWorkers stats)
        (IdleWorkers stats) (GoInt.add (BusyWorkers stats) 1)
        (UnhealthyWorkers stats) (TotalPendingTasks stats)
    else if String.eqb (Status worker) WorkerStatusUnhealthy then
      mkWorkerStats (StatsType stats) (TotalWorkers stats)
        (IdleWorkers stats) (BusyWorkers stats)
        (GoInt.add (UnhealthyWorkers stats) 1) (TotalPendingTasks stats)
    else stats in
  mkWorkerStats (StatsType stats) (TotalWorkers stats)
    (IdleWorkers stats) (BusyWorkers stats) (UnhealthyWorkers stats)
    (GoInt.add (TotalPendingTasks stats) (PendingTasks worker)).

Fixpoint GetWorkerStats_loop (workers : list WorkerInfo) (stats : WorkerStats)
    : WorkerStats :=
  match workers with
  | [] => stats
  | worker :: rest => GetWorkerStats_loop rest (stats_step stats worker)
  end.

Definition GetWorkerStats (r : Registry) (workerType : WorkerType)
    : M (Result WorkerStats) :=
  let filter := mkWorkerFilter [workerType] [] false in
  do listed <- ListWorkers r filter;
  match listed with
  | Err err => ret (Err err)
  | Ok workers =>
      let stats :=
        mkWorkerStats workerType (Z.of_nat (length workers)) 0 0 0 0 in
      ret (Ok (GetWorkerStats_loop workers stats))
  end.

Fixpoint CleanupStaleWorkers_loop (timeout : time.Duration)
    (keys : list string) (cleaned : Z) : M Z :=
  match keys with
  | [] => ret cleaned
  | key :: rest =>
      do res <- client_Get key;
      match res with
      | Err _ => CleanupStaleWorkers_loop timeout rest cleaned
      | Ok data =>
          match json_Unmarshal data with
          | Err _ => CleanupStaleWorkers_loop timeout rest cleaned
          | Ok worker =>
              do age <- time_Since (LastHeartbeat worker);
              if timeout <? age then
                do e <- client_Del key;
                match e with
                | Some err =>
                    exec logger_Warn "failed to delete stale worker"
                         [zap_String "worker_id" (ID worker); zap_Error err];
                    CleanupStaleWorkers_loop timeout rest cleaned
                | None =>
                    do idle <- time_Since (LastHeartbeat worker);
                    exec logger_Info "cleaned up stale worker"
                         [zap_String "worker_id" (ID worker);
                          zap_Duration "idle_time" idle];
                    CleanupStaleWorkers_loop timeout rest (GoInt.add cleaned 1)
                end
              else CleanupStaleWorkers_loop timeout rest cleaned
          end
      end
  end.

(** Returns the Go pair [(int, error)]. *)
Definition CleanupStaleWorkers (r : Registry) (timeout : time.Duration)
    : M (Z * option error) :=
  let pattern := (workerKeyPrefix ++ "*")%string in
  do scanned <- scanKeys pattern;
  match scanned with
  | Err err => ret (0, Some (wrapError "failed to scan worker keys: " err))
  | Ok keys =>
      do cleaned <- CleanupStaleWorkers_loop timeout keys 0;
      ret (cleaned, None)
  end.

End Registry.

(** ** A concrete environment

    An instance of [Ports] on which the model runs: the constants spelled as
    lower-case names and a codec that writes the seven fields separated by
    [;], numbers in decimal.  Encoding fails on a text field that contains
    the separator; decoding fails unless there are seven fields and the
    numeric ones parse. *)
Module Concrete.

Fixpoint split_on (sep : ascii) (s : string) : list string :=
  match s with
  | EmptyString => [EmptyString]
  | String c rest =>
      if Ascii.eqb c sep then EmptyString :: split_on sep rest
      else match split_on sep rest with
           | [] => [String c EmptyString]
           | f :: fs => String c f :: fs
           end
  end.

Definition show_Z (z : Z) : string :=
  DecimalString.NilZero.string_of_int (Z.to_int z).
Definition read_Z (s : string) : option Z :=
  option_map Z.of_int (DecimalString.NilZero.int_of_string s).

Definition has_sep (s : string) : bool := Contains s ";".

Definition marshal (w : WorkerInfo) : Result string :=
  if (has_sep (ID w) || has_sep (Type_ w) || has_sep (Status w)
      || has_sep (CurrentTask w))%bool
  then Err (errorString "json: unsupported value")
  else Ok (ID w ++ ";" ++ Type_ w ++ ";" ++ Status w ++ ";"
           ++ show_Z (RegisteredAt w) ++ ";" ++ show_Z (LastHeartbeat w)
           ++ ";" ++ CurrentTask w ++ ";" ++ show_Z (PendingTasks w))%string.

Definition unmarshal (data : string) : Result WorkerInfo :=
  match split_on ";" data with
  | [id; ty; st; reg; hb; task; pend] =>
      match read_Z reg, read_Z hb, read_Z pend with
      | Some reg, Some hb, Some pend =>
          Ok (mkWorkerInfo id ty st reg hb task pend)
      | _, _, _ => Err (errorString "json: cannot unmarshal number")
      end
  | _ => Err (errorString "json: unexpected end of input")
  end.

#[global] Instance ports : Ports := {|
  WorkerTypeExecutor := "executor";
  WorkerTypeRouter := "router";
  WorkerStatusIdle := "idle";
  WorkerStatusBusy := "busy";
  WorkerStatusUnhealthy := "unhealthy";
  json_Marshal := marshal;
  json_Unmarshal := unmarshal
|}.

(** A world with the given clock and key space, a healthy transport, no
    consumer group yet and an empty log. *)
Definition world (now : time.Time) (m : gmap string Entry) : World :=
  mkWorld now m (fun _ => None) (fun _ => None) (fun _ => None)
          (fun _ => None)
          (fun _ _ => Err (errorString "NOGROUP No such consumer group"))
          [].

Definition ioError : error := errorString "dial tcp: connection refused".

(** The same world with [DEL] failing on one key. *)
Definition with_del_fault (w : World) (key : string) : World :=
  mkWorld (clock w) (kv w) (get_fault w) (set_fault w)
          (fun k => if String.eqb k key then Some ioError else del_fault w k)
          (scan_fault w) (xinfo w) (logs w).

(** The same world with [GET] failing on one key. *)
Definition with_get_fault (w : World) (key : string) : World :=
  mkWorld (clock w) (kv w)
          (fun k => if String.eqb k key then Some ioError else get_fault w k)
          (set_fault w) (del_fault w) (scan_fault w) (xinfo w) (logs w).

(** Store [worker] under its key, expiring at [expires]. *)
Definition put (worker : WorkerInfo) (expires : time.Time)
    (m : gmap string Entry) : gmap string Entry :=
  match marshal worker with
  | Ok data => <[getWorkerKey (ID worker) := mkEntry data expires]> m
  | Err _ => m
  end.

End Concrete.

(** * Vocabulary of the properties

    The outcomes, predicates and example worlds in which the properties
    below are stated. *)

(** [sub] occurs in [s]. *)
Definition occurs_in (sub s : string) : Prop :=
  exists pre post : string, s = (pre ++ sub ++ post)%string.

(** The time-to-live values the store applies as they are given: a positive
    whole number of milliseconds. *)
Definition whole_milliseconds (d : time.Duration) : Prop :=
  0 < d /\ d mod time.Millisecond = 0.

(** What a scan can return: every matching live key, or the failure the
    transport reported at some cursor. *)
Definition scan_outcome (w : World) (pattern : string)
    (res : Result (list string)) : Prop :=
  (res = Ok (scan_view w pattern)
   \/ exists c e, scan_fault w c = Some e /\ res = Err e)
  /\ ((forall c, scan_fault w c = None) -> res = Ok (scan_view w pattern)).

Definition NotFoundError (workerID : string) : error :=
  errorString ("worker not found: " ++ workerID)%string.

(** The record Heartbeat builds for an id it could not read. *)
Definition autoRegistered `{Ports} (workerID : string) (status : WorkerStatus)
    (currentTask : string) (w : World) : WorkerInfo :=
  mkWorkerInfo workerID (inferWorkerType workerID) status (clock w) (clock w)
    currentTask
    match fst (getPendingTasksForWorker workerID (inferWorkerType workerID) w) with
    | Ok pendingTasks => pendingTasks
    | Err _ => 0
    end.

Definition autoRegisterWarn (workerID : string) : LogEntry :=
  mkLogEntry WarnLevel "heartbeat for unregistered worker, auto-registering"
             [zap_String "worker_id" workerID].

(** The record a reader hands out for a stored one at instant [now]: the
    self-reported status is overridden once the heartbeat is older than
    ttl. *)
Definition recomputed `{Ports} (r : Registry) (now : time.Time)
    (stored : WorkerInfo) : WorkerInfo :=
  if ttl r <? time.Sub now (LastHeartbeat stored)
  then set_Status stored WorkerStatusUnhealthy
  else stored.

(** The filter as the spec words it: a set of acceptable types (empty: all),
    a set of acceptable statuses (empty: all) judged on the recomputed
    status, and the healthy-only flag judged on the heartbeat age. *)
Definition passes_filter `{Ports} (r : Registry) (now : time.Time)
    (filter : WorkerFilter) (stored : WorkerInfo) : Prop :=
  (Types filter = [] \/ In (Type_ stored) (Types filter))
  /\ (Statuses filter = []
      \/ In (Status (recomputed r now stored)) (Statuses filter))
  /\ (HealthyOnly filter = true ->
      time.Sub now (LastHeartbeat stored) <= ttl r).

(** What one turn of the listing loop appends for [key], if anything. *)
Definition listed `{Ports} (r : Registry) (filter : WorkerFilter) (w : World)
    (key : string) : option WorkerInfo :=
  match get_fault w key with
  | Some _ => None
  | None =>
      match live w key with
      | None => None
      | Some data =>
          match json_Unmarshal data with
          | Err _ => None
          | Ok stored =>
              let isHealthy :=
                time.Sub (clock w) (LastHeartbeat stored) <=? ttl r in
              let worker := recomputed r (clock w) stored in
              if matchesFilter worker filter isHealthy then Some worker
              else None
          end
      end
  end.

(** The spec's filter example: of A (Executor, Idle), B (Router, Busy) and
    C (Executor, heartbeat older than ttl), the filter on type Executor with
    healthy_only keeps exactly A. *)
Definition exampleA : WorkerInfo :=
  mkWorkerInfo "A" "executor" "idle" (90 * time.Second) (95 * time.Second) "" 2.
Definition exampleB : WorkerInfo :=
  mkWorkerInfo "B" "router" "busy" (90 * time.Second) (99 * time.Second) "t1" 0.
Definition exampleC : WorkerInfo :=
  mkWorkerInfo "C" "executor" "busy" (10 * time.Second) (60 * time.Second) "t2" 5.
Definition exampleWorld : World :=
  Concrete.world (100 * time.Second)
    (Concrete.put exampleA (125 * time.Second)
       (Concrete.put exampleB (129 * time.Second)
          (Concrete.put exampleC (130 * time.Second) ∅))).

(** The aggregates as the spec words them: the number of listed records with
    a given status, and the sum of their pending tasks. *)
Definition count_status (s : WorkerStatus) (workers : list WorkerInfo) : Z :=
  Z.of_nat
    (length (List.filter (fun worker => String.eqb (Status worker) s) workers)).

Fixpoint sum_pending (workers : list WorkerInfo) : Z :=
  match workers with
  | [] => 0
  | worker :: rest => PendingTasks worker + sum_pending rest
  end.

(** The spec's aggregation example, with a Router worker on the side:
    Executor workers with pending counts 2, 0 and 5 whose statuses read
    Idle, Busy and Unhealthy. *)
Definition exampleD : WorkerInfo :=
  mkWorkerInfo "D" "executor" "busy" (90 * time.Second) (98 * time.Second) "t3" 0.
Definition statsWorld : World :=
  with_kv exampleWorld (Concrete.put exampleD (128 * time.Second) (kv exampleWorld)).

(** The record the sweep finds stale under [key]: the key reads, decodes,
    and its heartbeat age strictly exceeds the timeout. *)
Definition stale `{Ports} (timeout : time.Duration) (w : World) (key : string)
    : option WorkerInfo :=
  match get_fault w key with
  | Some _ => None
  | None =>
      match live w key with
      | None => None
      | Some data =>
          match json_Unmarshal data with
          | Err _ => None
          | Ok worker =>
              if timeout <? time.Sub (clock w) (LastHeartbeat worker)
              then Some worker else None
          end
      end
  end.

(** [key] is stale and the store accepts its deletion. *)
Definition swept `{Ports} (timeout : time.Duration) (w : World) (key : string)
    : bool :=
  match stale timeout w key, del_fault w key with
  | Some _, None => true
  | _, _ => false
  end.

Definition deleteWarn (worker : WorkerInfo) (err : error) : LogEntry :=
  mkLogEntry WarnLevel "failed to delete stale worker"
             [zap_String "worker_id" (ID worker); zap_Error err].

Definition cleanedInfo (worker : WorkerInfo) (idle : time.Duration) : LogEntry :=
  mkLogEntry InfoLevel "cleaned up stale worker"
             [zap_String "worker_id" (ID worker); zap_Duration "idle_time" idle].

(** The keys whose deletion the sweep makes, in scan order. *)
Definition sweep_list `{Ports} (timeout : time.Duration) (w : World)
    : list string :=
  List.filter (swept timeout w) (scan_view w (workerKeyPrefix ++ "*")).

(** A worker key holding a record whose heartbeat age strictly exceeds the
    timeout. *)
Definition expired `{Ports} (timeout : time.Duration) (w : World)
    (key : string) : Prop :=
  exists data worker,
    glob (workerKeyPrefix ++ "*") key = true
    /\ live w key = Some data
    /\ json_Unmarshal data = Ok worker
    /\ timeout < time.Sub (clock w) (LastHeartbeat worker).

(** The spec's threshold example with a timeout of 30 seconds at instant
    100 s: X last beat at 71 s, Y at 69 s.  Y alone is removed and the count
    is 1. *)
Definition exampleX : WorkerInfo :=
  mkWorkerInfo "X" "executor" "idle" (50 * time.Second)
    (100 * time.Second - (30 * time.Second - time.Second)) "" 0.
Definition exampleY : WorkerInfo :=
  mkWorkerInfo "Y" "executor" "idle" (50 * time.Second)
    (100 * time.Second - (30 * time.Second + time.Second)) "" 0.
Definition sweepWorld : World :=
  Concrete.world (100 * time.Second)
    (Concrete.put exampleX (200 * time.Second)
       (Concrete.put exampleY (200 * time.Second) ∅)).

(** The record Heartbeat writes back for a record it could read: status,
    current task and last heartbeat refreshed, everything else kept. *)
Definition refreshed (worker : WorkerInfo) (status : WorkerStatus)
    (currentTask : string) (now : time.Time) : WorkerInfo :=
  mkWorkerInfo (ID worker) (Type_ worker) status (RegisteredAt worker) now
    currentTask (PendingTasks worker).

(** The pending-task count Heartbeat stores: the queue's answer, or the
    count the record already had when the queue cannot be asked. *)
Definition withPending `{Ports} (workerID : string) (worker : WorkerInfo)
    (w : World) : WorkerInfo :=
  match fst (getPendingTasksForWorker workerID (Type_ worker) w) with
  | Ok pendingTasks => set_PendingTasks worker pendingTasks
  | Err _ => worker
  end.

Definition pendingWarn (workerID : string) (err : error) : LogEntry :=
  mkLogEntry WarnLevel "failed to get pending tasks"
             [zap_String "worker_id" workerID; zap_Error err].

(** The record a heartbeat has in hand before it asks the queue: the stored
    one refreshed, or a new one when the read failed. *)
Definition heartbeatBase `{Ports} (r : Registry) (workerID : string)
    (status : WorkerStatus) (currentTask : string) (w : World) : WorkerInfo :=
  match fst (GetWorker r workerID w) with
  | Ok worker => refreshed worker status currentTask (clock w)
  | Err _ =>
      mkWorkerInfo workerID (inferWorkerType workerID) status (clock w)
                   (clock w) currentTask 0
  end.

(** The record a heartbeat writes, on either branch. *)
Definition heartbeatWritten `{Ports} (r : Registry) (workerID : string)
    (status : WorkerStatus) (currentTask : string) (w : World) : WorkerInfo :=
  withPending workerID (heartbeatBase r workerID status currentTask w) w.

(** The warnings a heartbeat logs: the auto-registration, then the queue's
    failure. *)
Definition heartbeatLog `{Ports} (r : Registry) (workerID : string)
    (status : WorkerStatus) (currentTask : string) (w : World)
    : list LogEntry :=
  (match fst (GetWorker r workerID w) with
   | Ok _ => []
   | Err _ => [autoRegisterWarn workerID]
   end
   ++
   match fst (getPendingTasksForWorker workerID
                (Type_ (heartbeatBase r workerID status currentTask w)) w) with
   | Ok _ => []
   | Err err => [pendingWarn workerID err]
   end)%list.

Definition unregisteredInfo (workerID : string) : LogEntry :=
  mkLogEntry InfoLevel "worker unregistered" [zap_String "worker_id" workerID].

(** The filter that lets every record through. *)
Definition noFilter : WorkerFilter := mkWorkerFilter [] [] false.

(** The warning the listing loop logs for [key], if any: a read that fails
    for another reason than the key being gone, or a payload that does not
    decode. *)
Definition getWarn (key : string) (err : error) : LogEntry :=
  mkLogEntry WarnLevel "failed to get worker"
             [zap_String "key" key; zap_Error err].

Definition unmarshalWarn (key : string) (err : error) : LogEntry :=
  mkLogEntry WarnLevel "failed to unmarshal worker"
             [zap_String "key" key; zap_Error err].

Definition listLog `{Ports} (w : World) (key : string) : list LogEntry :=
  match get_fault w key with
  | Some e => if is_redis_Nil e then [] else [getWarn key e]
  | None =>
      match live w key with
      | None => []
      | Some data =>
          match json_Unmarshal data with
          | Err e => [unmarshalWarn key e]
          | Ok _ => []
          end
      end
  end.

(** The example world with the queue in place: the executor group reports
    4 pending tasks for A and 1 for D, and the router stream can not be
    reached. *)
Definition queueWorld : World :=
  mkWorld (clock exampleWorld) (kv exampleWorld) (get_fault exampleWorld)
          (set_fault exampleWorld) (del_fault exampleWorld)
          (scan_fault exampleWorld)
          (fun stream _ =>
             if String.eqb stream executorStreamKey
             then Ok [mkXInfoConsumer "A" 4; mkXInfoConsumer "D" 1]
             else Err (errorString "read tcp: connection reset"))
          [].

(** The number of listed workers whose status is none of the three the
    aggregation counts. *)
Definition count_other `{Ports} (workers : list WorkerInfo) : Z :=
  Z.of_nat
    (length
       (List.filter
          (fun worker =>
             (negb (String.eqb (Status worker) WorkerStatusIdle)
              && negb (String.eqb (Status worker) WorkerStatusBusy)
              && negb (String.eqb (Status worker) WorkerStatusUnhealthy))%bool)
          workers)).

(** A store of [n] worker records, numbered from 0, all live at instant 0. *)
Definition manyWorkers (n : nat) : World :=
  Concrete.world 0
    (list_to_map
       (map (fun i : nat =>
               (getWorkerKey (Concrete.show_Z (Z.of_nat i)),
                mkEntry (Concrete.show_Z (Z.of_nat i)) time.Second))
            (seq 0 n))).

(** The example world with one more worker key, holding a payload that does
    not decode. *)
Definition garbledWorld : World :=
  with_kv exampleWorld
    (<[getWorkerKey "Z" := mkEntry "{" (130 * time.Second)]> (kv exampleWorld)).

(** * Verification *)

(** Split a conjunction of closed facts and evaluate each of them. *)
Ltac evaluate :=
  repeat match goal with |- _ /\ _ => split end;
  vm_compute; first [reflexivity | discriminate].

(** ** Integers, durations and substrings *)

Lemma wrap_in_range z : GoInt.in_range z -> GoInt.wrap z = z.
Proof.
  unfold GoInt.in_range, GoInt.min_int, GoInt.max_int, GoInt.wrap.
  intros Hz. rewrite Z.mod_small; lia.
Qed.

Lemma wrap_add_l a b : GoInt.wrap (GoInt.wrap a + b) = GoInt.wrap (a + b).
Proof.
  unfold GoInt.wrap.
  replace (((a + 2 ^ 63) mod 2 ^ 64 - 2 ^ 63 + b + 2 ^ 63))
    with ((a + 2 ^ 63) mod 2 ^ 64 + b) by lia.
  rewrite Zplus_mod_idemp_l. f_equal. f_equal. lia.
Qed.

Lemma add_wrap_l a b : GoInt.add (GoInt.wrap a) b = GoInt.wrap (a + b).
Proof. apply wrap_add_l. Qed.

Lemma append_cons (c : ascii) (s t : string) :
  (String c s ++ t)%string = String c (s ++ t)%string.
Proof. reflexivity. Qed.

Lemma prefix_true_iff (p s : string) :
  String.prefix p s = true <-> exists post : string, s = (p ++ post)%string.
Proof.
  revert s. induction p as [| c p IH]; intros s.
  - split; [intros _; exists s; reflexivity | now destruct s].
  - destruct s as [| d s]; cbn [String.prefix].
    + split; [discriminate | intros [post Hpost]; discriminate].
    + destruct (Ascii.ascii_dec c d) as [-> | Hne].
      * rewrite IH. split; intros [post Hpost]; exists post.
        -- rewrite append_cons. now rewrite Hpost.
        -- rewrite append_cons in Hpost. now injection Hpost.
      * split; [discriminate |].
        intros [post Hpost]. rewrite append_cons in Hpost.
        injection Hpost as Hcd _. congruence.
Qed.

Lemma Contains_here (s sub : string) :
  String.prefix sub s = true -> occurs_in sub s.
Proof.
  intros Hp. apply prefix_true_iff in Hp as [post Hpost].
  exists ""%string, post. exact Hpost.
Qed.

Lemma Contains_occurs (s sub : string) :
  Contains s sub = true <-> occurs_in sub s.
Proof.
  induction s as [| c s IH]; cbn [Contains].
  - destruct (String.prefix sub "") eqn:Hp.
    + split; [intros _; now apply Contains_here | reflexivity].
    + split; [discriminate |].
      intros [pre [post Heq]].
      destruct pre; [| discriminate].
      assert (String.prefix sub "" = true) as Ht
        by (apply prefix_true_iff; exists post; exact Heq).
      congruence.
  - destruct (String.prefix sub (String c s)) eqn:Hp.
    + split; [intros _; now apply Contains_here | reflexivity].
    + rewrite IH. split.
      * intros [pre [post Heq]]. exists (String c pre), post.
        rewrite append_cons. now rewrite Heq.
      * intros [pre [post Heq]].
        destruct pre as [| d pre].
        -- assert (String.prefix sub (String c s) = true) as Ht
             by (apply prefix_true_iff; exists post; exact Heq).
           congruence.
        -- rewrite append_cons in Heq. injection Heq as _ Heq.
           exists pre, post. exact Heq.
Qed.

(** ** The key scan *)

(** The loop leaves the world alone and, started inside the key list with
    more fuel than keys still to come, never runs out of fuel. *)
Lemma scanKeys_loop_fuel pattern w fuel :
  forall cursor,
    (cursor <= length (scan_view w pattern))%nat ->
    (length (scan_view w pattern) < fuel + cursor)%nat ->
    exists res,
      scanKeys_loop fuel pattern cursor (take cursor (scan_view w pattern)) w
      = (Some res, w)
      /\ scan_outcome w pattern res.
Proof.
  induction fuel as [| fuel IH]; intros cursor Hin Hfuel; [lia |].
  cbn [scanKeys_loop]. unfold bind, client_Scan.
  destruct (scan_fault w cursor) as [e |] eqn:Hf.
  - exists (Err e). split; [reflexivity |]. split.
    + right. now exists cursor, e.
    + intros Hok. rewrite Hok in Hf. discriminate.
  - rewrite take_take_drop.
    destruct (Nat.ltb_spec (cursor + 100) (length (scan_view w pattern)))
      as [Hmore | Hlast].
    + destruct (Nat.eqb_spec (cursor + 100) 0) as [Hz | _]; [lia |].
      apply IH; lia.
    + cbn [Nat.eqb ret]. rewrite take_ge by lia.
      exists (Ok (scan_view w pattern)). split; [reflexivity |].
      split; [now left | reflexivity].
Qed.

Lemma scanKeys_spec pattern w :
  exists res, scanKeys pattern w = (res, w) /\ scan_outcome w pattern res.
Proof.
  unfold scanKeys.
  destruct (scanKeys_loop_fuel pattern w (S (length (scan_view w pattern))) 0)
    as [res [Hrun Hres]]; [lia | lia |].
  rewrite take_0 in Hrun. rewrite Hrun. now exists res.
Qed.

(** The keys a scan reports are distinct and readable. *)
Lemma scan_view_NoDup w pattern : NoDup (scan_view w pattern).
Proof.
  unfold scan_view. apply NoDup_filter. apply NoDup_fst_map_to_list.
Qed.

Lemma scan_view_elem w pattern key :
  key ∈ scan_view w pattern <->
  glob pattern key = true /\ is_Some (live w key).
Proof.
  unfold scan_view. rewrite list_elem_of_filter.
  split.
  - intros [H _]. exact H.
  - intros [Hg Hl]. split; [now split |].
    destruct Hl as [data Hl]. unfold live in Hl.
    destruct (kv w !! key) as [en |] eqn:Hk; [| discriminate].
    apply list_elem_of_fmap. exists (key, en). split; [reflexivity |].
    now apply elem_of_map_to_list.
Qed.

Lemma scan_view_length w pattern :
  (length (scan_view w pattern) <= size (kv w))%nat.
Proof.
  unfold scan_view.
  etransitivity; [apply length_filter |].
  rewrite length_map. unfold size, map_size.
  now rewrite length_map_to_list.
Qed.

(** ** Type inference *)

(** C10: type inference looks for the Executor marker first.  An id in which
    "executor" occurs is inferred as Executor, also when "router" occurs in
    it too; the ids inferred as Router are exactly those in which "router"
    occurs and "executor" does not. *)
Theorem inferWorkerType_executor_first `{Ports} (workerID : string) :
  WorkerTypeExecutor <> WorkerTypeRouter ->
  (occurs_in "executor" workerID ->
   inferWorkerType workerID = WorkerTypeExecutor)
  /\ (inferWorkerType workerID = WorkerTypeRouter <->
      occurs_in "router" workerID /\ ~ occurs_in "executor" workerID).
Proof.
  intros Hdistinct. unfold inferWorkerType.
  rewrite <- !Contains_occurs.
  destruct (Contains workerID "executor") eqn:Hexec;
    destruct (Contains workerID "router") eqn:Hrout; split;
    try (intros _; reflexivity); try discriminate; split;
    try (intros [? Hn]; exfalso; now apply Hn);
    try (intros [Hr _]; discriminate Hr);
    try (intros Heq; exfalso; now apply Hdistinct);
    try (intros _; split; [reflexivity | discriminate]);
    try reflexivity.
Qed.

Lemma inferWorkerType_executor_first_witness :
  (occurs_in "executor" "router-executor-1" ->
   @inferWorkerType Concrete.ports "router-executor-1" = "executor"%string)
  /\ (@inferWorkerType Concrete.ports "router-executor-1" = "router"%string <->
      occurs_in "router" "router-executor-1"
      /\ ~ occurs_in "executor" "router-executor-1").
Proof.
  apply (@inferWorkerType_executor_first Concrete.ports "router-executor-1").
  discriminate.
Defined.

(** ** Register *)

(** Register, run: the three ways it can end. *)
Lemma Register_run `{Ports} (r : Registry) (worker : WorkerInfo) (w : World) :
  Register r worker w =
  match json_Marshal worker with
  | Err e => (Some (wrapError "failed to marshal worker info: " e), w)
  | Ok data =>
      match set_fault w (getWorkerKey (ID worker)) with
      | Some e => (Some (wrapError "failed to register worker: " e), w)
      | None =>
          (None,
           with_logs
             (with_kv w
                (<[getWorkerKey (ID worker)
                   := mkEntry data (clock w + ttl r)]> (kv w)))
             (logs w ++
              [mkLogEntry InfoLevel "worker registered"
                 [zap_String "worker_id" (ID worker);
                  zap_String "type" (Type_ worker);
                  zap_Duration "ttl" (ttl r)]]))
      end
  end.
Proof.
  unfold Register, bind, client_Set, logger_Info, logger_log, ret.
  destruct (json_Marshal worker) as [data | e]; [| reflexivity].
  now destruct (set_fault w (getWorkerKey (ID worker))).
Qed.

(** C3, as the spec has it, fails: a record with an empty id and a type
    that is neither Executor nor Router is accepted and written. *)
Lemma Register_unvalidated_counterexample :
  let bad := mkWorkerInfo "" "gpu" "idle" 0 0 "" 0 in
  let w := Concrete.world 0 ∅ in
  ID bad = ""%string
  /\ Type_ bad <> @WorkerTypeExecutor Concrete.ports
  /\ Type_ bad <> @WorkerTypeRouter Concrete.ports
  /\ fst (Register NewRegistry bad w) = None
  /\ live (snd (Register NewRegistry bad w)) (getWorkerKey "")
     = Some ";gpu;idle;0;0;;0"%string.
Proof.
  repeat split; try discriminate; vm_compute; reflexivity.
Qed.

(** C3 (amended): Register does not inspect the id or the type.  It succeeds
    exactly when the record serializes and the store accepts the write; then
    the serialized record is stored under the key of its id and no other key
    changes, and with a ttl of a positive whole number of milliseconds the
    entry expires one ttl from now.  When it fails, the key space is what it
    was. *)
Theorem Register_writes_unvalidated `{Ports} (r : Registry) (worker : WorkerInfo)
    (w : World) :
  let key := getWorkerKey (ID worker) in
  let res := fst (Register r worker w) in
  let w' := snd (Register r worker w) in
  (res = None <->
   (exists data, json_Marshal worker = Ok data) /\ set_fault w key = None)
  /\ (res = None ->
      exists data en,
        json_Marshal worker = Ok data
        /\ kv w' = <[key := en]> (kv w)
        /\ value en = data
        /\ (whole_milliseconds (ttl r) -> expires en = clock w + ttl r))
  /\ (res <> None -> kv w' = kv w).
Proof.
  cbv zeta. rewrite Register_run.
  destruct (json_Marshal worker) as [data | e]; cbn.
  - destruct (set_fault w (getWorkerKey (ID worker))) as [e |]; cbn.
    + split; [| split].
      * split; [discriminate | intros [_ Hf]; discriminate Hf].
      * discriminate.
      * reflexivity.
    + split; [| split].
      * split; [intros _; split; [now exists data | reflexivity] | reflexivity].
      * intros _. exists data, (mkEntry data (clock w + ttl r)).
        split; [reflexivity |]. split; [reflexivity |].
        split; [reflexivity | intros _; reflexivity].
      * intros Hn. now contradiction Hn.
  - split; [| split].
    + split; [discriminate | intros [[data Hd] _]; discriminate Hd].
    + discriminate.
    + reflexivity.
Qed.

(** ** GetWorker *)

(** GetWorker only reads. *)
Lemma GetWorker_world `{Ports} r workerID w :
  snd (GetWorker r workerID w) = w.
Proof.
  unfold GetWorker, bind, client_Get, time_Since, time_Now, ret.
  destruct (get_fault w (getWorkerKey workerID)) as [e |]; cbn.
  - now destruct (is_redis_Nil e).
  - destruct (live w (getWorkerKey workerID)) as [data |]; cbn; [| reflexivity].
    destruct (json_Unmarshal data) as [worker | e]; cbn; [| reflexivity].
    now destruct (ttl r <? time.Sub (clock w) (LastHeartbeat worker)).
Qed.

(** What GetWorker returns for a key the transport can read. *)
Lemma GetWorker_read `{Ports} r workerID w :
  get_fault w (getWorkerKey workerID) = None ->
  fst (GetWorker r workerID w) =
  match live w (getWorkerKey workerID) with
  | None => Err (NotFoundError workerID)
  | Some data =>
      match json_Unmarshal data with
      | Err e => Err (wrapError "failed to unmarshal worker info: " e)
      | Ok worker =>
          if ttl r <? time.Sub (clock w) (LastHeartbeat worker)
          then Ok (set_Status worker WorkerStatusUnhealthy)
          else Ok worker
      end
  end.
Proof.
  intros Hf.
  unfold GetWorker, bind, client_Get, time_Since, time_Now, ret. rewrite Hf.
  destruct (live w (getWorkerKey workerID)) as [data |]; cbn; [| reflexivity].
  destruct (json_Unmarshal data) as [worker | e]; cbn; [| reflexivity].
  now destruct (ttl r <? time.Sub (clock w) (LastHeartbeat worker)).
Qed.

(** C4: when the stored record's heartbeat is older than ttl, GetWorker
    either reports the worker as not found, which happens exactly when the
    store has expired the key, or returns the record with status Unhealthy,
    which is neither Idle nor Busy.  The override is made on the returned
    value only: the world after the call is the world before it. *)
Theorem GetWorker_expiry_derived_health `{Ports} (r : Registry)
    (workerID : string) (w : World) (en : Entry) (worker : WorkerInfo) :
  WorkerStatusUnhealthy <> WorkerStatusIdle ->
  WorkerStatusUnhealthy <> WorkerStatusBusy ->
  get_fault w (getWorkerKey workerID) = None ->
  kv w !! getWorkerKey workerID = Some en ->
  json_Unmarshal (value en) = Ok worker ->
  ttl r < time.Sub (clock w) (LastHeartbeat worker) ->
  let res := fst (GetWorker r workerID w) in
  let w' := snd (GetWorker r workerID w) in
  w' = w
  /\ kv w' !! getWorkerKey workerID = Some en
  /\ ((expires en <= clock w /\ res = Err (NotFoundError workerID))
      \/ (clock w < expires en
          /\ exists got, res = Ok got
               /\ got = set_Status worker WorkerStatusUnhealthy
               /\ Status got = WorkerStatusUnhealthy
               /\ Status got <> WorkerStatusIdle
               /\ Status got <> WorkerStatusBusy)).
Proof.
  intros Hidle Hbusy Hf Hkv Hdec Hage. cbv zeta.
  rewrite GetWorker_world, (GetWorker_read r workerID w Hf).
  split; [reflexivity |]. split; [exact Hkv |].
  unfold live. rewrite Hkv.
  destruct (Z.ltb_spec (clock w) (expires en)) as [Hlive | Hdead].
  - right. split; [exact Hlive |]. rewrite Hdec.
    destruct (Z.ltb_spec (ttl r) (time.Sub (clock w) (LastHeartbeat worker)));
      [| lia].
    exists (set_Status worker WorkerStatusUnhealthy). now repeat split.
  - left. now split.
Qed.

Lemma GetWorker_expiry_derived_health_witness :
  let worker :=
    mkWorkerInfo "executor-1" "executor" "busy" (10 * time.Second)
      (100 * time.Second - ttl NewRegistry - time.Second) "task-1" 0 in
  let w := Concrete.world (100 * time.Second)
             (Concrete.put worker (105 * time.Second) ∅) in
  let expired := with_clock w (105 * time.Second) in
  ttl NewRegistry < time.Sub (clock w) (LastHeartbeat worker)
  /\ fst (GetWorker NewRegistry "executor-1" w)
     = Ok (set_Status worker "unhealthy")
  /\ snd (GetWorker NewRegistry "executor-1" w) = w
  /\ fst (GetWorker NewRegistry "executor-1" expired)
     = Err (NotFoundError "executor-1").
Proof.
  cbv zeta. split; [vm_compute; reflexivity |].
  pose proof (@GetWorker_expiry_derived_health Concrete.ports NewRegistry
                "executor-1"
                (Concrete.world (100 * time.Second)
                   (Concrete.put
                      (mkWorkerInfo "executor-1" "executor" "busy"
                         (10 * time.Second)
                         (100 * time.Second - ttl NewRegistry - time.Second)
                         "task-1" 0)
                      (105 * time.Second) ∅))
                (mkEntry "executor-1;executor;busy;10000000000;69000000000;task-1;0"
                         (105 * time.Second))
                (mkWorkerInfo "executor-1" "executor" "busy"
                   (10 * time.Second)
                   (100 * time.Second - ttl NewRegistry - time.Second)
                   "task-1" 0)) as Hthm.
  cbv zeta in Hthm.
  destruct Hthm as [Hworld [_ Hres]];
    [discriminate | discriminate | reflexivity | vm_compute; reflexivity
    | vm_compute; reflexivity | vm_compute; reflexivity |].
  destruct Hres as [[Hexp _] | [_ [got [Hgot [Heq _]]]]].
  - vm_compute in Hexp. exfalso. now apply Hexp.
  - split; [now rewrite Hgot, Heq |]. split; [exact Hworld |].
    vm_compute. reflexivity.
Defined.

(** ** Heartbeat *)

Lemma GetWorker_run `{Ports} r workerID w :
  GetWorker r workerID w = (fst (GetWorker r workerID w), w).
Proof.
  rewrite <- (GetWorker_world r workerID w) at 3. apply surjective_pairing.
Qed.

(** The pending-task query only reads, and reads nothing but the consumer
    tables. *)
Lemma getPendingTasksForWorker_run `{Ports} workerID workerType w :
  getPendingTasksForWorker workerID workerType w
  = (fst (getPendingTasksForWorker workerID workerType w), w).
Proof.
  unfold getPendingTasksForWorker, bind, client_XInfoConsumers, ret.
  destruct (String.eqb workerType WorkerTypeExecutor).
  - destruct (xinfo w executorStreamKey executorConsumerGroup) as [cs | e];
      [reflexivity |].
    now destruct (Contains (Error e) "NOGROUP").
  - destruct (String.eqb workerType WorkerTypeRouter); [| reflexivity].
    destruct (xinfo w routerStreamKey routerConsumerGroup) as [cs | e];
      [reflexivity |].
    now destruct (Contains (Error e) "NOGROUP").
Qed.

Lemma getPendingTasksForWorker_logs `{Ports} workerID workerType w l :
  fst (getPendingTasksForWorker workerID workerType (with_logs w l))
  = fst (getPendingTasksForWorker workerID workerType w).
Proof.
  unfold getPendingTasksForWorker, bind, client_XInfoConsumers, ret.
  destruct (String.eqb workerType WorkerTypeExecutor);
    [| destruct (String.eqb workerType WorkerTypeRouter); [| reflexivity]];
    cbv beta zeta; change (xinfo (with_logs w l)) with (xinfo w);
    (match goal with |- context [xinfo w ?s ?g] =>
       destruct (xinfo w s g) as [cs | e] end);
    try reflexivity; now destruct (Contains (Error e) "NOGROUP").
Qed.

(** Whatever failure GetWorker reports, Heartbeat logs the auto-registration
    and goes on to write the auto-registered record. *)
Lemma Heartbeat_unreadable `{Ports} r workerID status currentTask w e :
  fst (GetWorker r workerID w) = Err e ->
  exists l : list LogEntry,
    Heartbeat r workerID status currentTask w =
    let key := getWorkerKey workerID in
    let w1 := with_logs w (logs w ++ autoRegisterWarn workerID :: l) in
    match json_Marshal (autoRegistered workerID status currentTask w) with
    | Err e' => (Some (wrapError "failed to marshal worker info: " e'), w1)
    | Ok data =>
        match set_fault w key with
        | Some e' => (Some (wrapError "failed to update heartbeat: " e'), w1)
        | None =>
            (None, with_kv w1 (<[key := mkEntry data (clock w + ttl r)]> (kv w)))
        end
    end.
Proof.
  intros Hget. cbv zeta. unfold Heartbeat, autoRegistered.
  unfold bind. rewrite GetWorker_run, Hget.
  cbn [logger_Warn logger_log time_Now ret with_logs clock Type_].
  rewrite getPendingTasksForWorker_run, getPendingTasksForWorker_logs.
  destruct (fst (getPendingTasksForWorker workerID (inferWorkerType workerID) w))
    as [pendingTasks | qe].
  - exists []. unfold set_PendingTasks.
    cbn [ID Type_ Status RegisteredAt LastHeartbeat CurrentTask PendingTasks ret].
    match goal with |- context [json_Marshal ?x] =>
       destruct (json_Marshal x) as [data | e'] end; [| reflexivity].
    unfold client_Set. cbn [set_fault with_logs kv clock].
    destruct (set_fault w (getWorkerKey workerID)) as [e' |]; reflexivity.
  - exists [mkLogEntry WarnLevel "failed to get pending tasks"
                       [zap_String "worker_id" workerID; zap_Error qe]].
    cbn [ID Type_ Status RegisteredAt LastHeartbeat CurrentTask PendingTasks ret
         with_logs logs].
    match goal with |- context [json_Marshal ?x] =>
       destruct (json_Marshal x) as [data | e'] end.
    + unfold client_Set. cbn [set_fault with_logs kv clock].
      destruct (set_fault w (getWorkerKey workerID)) as [e' |];
        unfold ret, with_logs, with_kv; cbn; rewrite <- app_assoc; reflexivity.
    + unfold ret, with_logs; cbn. rewrite <- app_assoc. reflexivity.
Qed.

(** C5: a heartbeat for an id with no stored record does not fail with
    NotFoundError.  It writes a new record whose id, status and current
    task are the arguments, whose registration and last heartbeat are now,
    and whose type is inferred from the id: Executor when "executor" occurs
    in it, Router when "router" occurs in it and "executor" does not, and
    Executor again when neither marker occurs.  The call succeeds whenever
    that record serializes and the store takes the write, and the record is
    then what the store holds under the id's key; with a ttl of a positive
    whole number of milliseconds the entry expires one ttl from now. *)
Theorem Heartbeat_self_healing `{Ports} (r : Registry) (workerID : string)
    (status : WorkerStatus) (currentTask : string) (w : World) :
  get_fault w (getWorkerKey workerID) = None ->
  live w (getWorkerKey workerID) = None ->
  let key := getWorkerKey workerID in
  let res := fst (Heartbeat r workerID status currentTask w) in
  let w' := snd (Heartbeat r workerID status currentTask w) in
  let created := autoRegistered workerID status currentTask w in
  res <> Some (NotFoundError workerID)
  /\ (forall data,
        json_Marshal created = Ok data -> set_fault w key = None ->
        res = None
        /\ exists en,
             kv w' !! key = Some en
             /\ value en = data
             /\ (whole_milliseconds (ttl r) -> expires en = clock w + ttl r))
  /\ (res = None ->
      exists data en,
        json_Marshal created = Ok data
        /\ kv w' !! key = Some en
        /\ value en = data
        /\ (whole_milliseconds (ttl r) -> expires en = clock w + ttl r))
  /\ ID created = workerID
  /\ Status created = status
  /\ CurrentTask created = currentTask
  /\ RegisteredAt created = clock w
  /\ LastHeartbeat created = clock w
  /\ (occurs_in "executor" workerID -> Type_ created = WorkerTypeExecutor)
  /\ (occurs_in "router" workerID -> ~ occurs_in "executor" workerID ->
      Type_ created = WorkerTypeRouter)
  /\ (~ occurs_in "executor" workerID -> ~ occurs_in "router" workerID ->
      Type_ created = WorkerTypeExecutor).
Proof.
  intros Hf Hnone. cbv zeta.
  assert (fst (GetWorker r workerID w) = Err (NotFoundError workerID)) as Hget
    by (rewrite (GetWorker_read r workerID w Hf), Hnone; reflexivity).
  destruct (Heartbeat_unreadable r workerID status currentTask w _ Hget)
    as [l Hb].
  cbv zeta in Hb. rewrite Hb. clear Hb.
  split; [| split; [| split]].
  - destruct (json_Marshal (autoRegistered workerID status currentTask w));
      [destruct (set_fault w (getWorkerKey workerID)) |]; discriminate.
  - intros data Hm Hs. rewrite Hm, Hs.
    split; [reflexivity |]. exists (mkEntry data (clock w + ttl r)).
    split; [apply lookup_insert_eq |].
    split; [reflexivity | intros _; reflexivity].
  - destruct (json_Marshal (autoRegistered workerID status currentTask w))
      as [data | e']; [| discriminate].
    destruct (set_fault w (getWorkerKey workerID)); [discriminate |].
    intros _. exists data, (mkEntry data (clock w + ttl r)).
    split; [reflexivity |]. split; [apply lookup_insert_eq |].
    split; [reflexivity | intros _; reflexivity].
  - do 5 (split; [reflexivity |]).
    unfold autoRegistered, inferWorkerType. cbn [Type_].
    rewrite <- !Contains_occurs.
    destruct (Contains workerID "executor");
      destruct (Contains workerID "router"); split; [| split | | split | | split | | split];
      try (intros _; reflexivity); try discriminate;
      try (intros _ Hn; exfalso; now apply Hn);
      try (intros Hn; exfalso; now apply Hn);
      try (intros _ _; reflexivity).
Qed.

Lemma Heartbeat_self_healing_witness :
  let w := Concrete.world (100 * time.Second) ∅ in
  let run := Heartbeat NewRegistry "executor-worker-x" "busy" "task-7" w in
  let run' := Heartbeat NewRegistry "router-9" "idle" "" w in
  live w (getWorkerKey "executor-worker-x") = None
  /\ fst run = None
  /\ kv (snd run) !! getWorkerKey "executor-worker-x"
     = Some (mkEntry
               "executor-worker-x;executor;busy;100000000000;100000000000;task-7;0"
               (130 * time.Second))
  /\ live w (getWorkerKey "router-9") = None
  /\ fst run' = None
  /\ kv (snd run') !! getWorkerKey "router-9"
     = Some (mkEntry "router-9;router;idle;100000000000;100000000000;;0"
                     (130 * time.Second)).
Proof.
  cbv zeta. split; [reflexivity |].
  destruct (@Heartbeat_self_healing Concrete.ports NewRegistry
              "executor-worker-x" "busy" "task-7"
              (Concrete.world (100 * time.Second) ∅))
    as [_ [Hwrite _]]; [reflexivity | reflexivity |].
  destruct (Hwrite
              "executor-worker-x;executor;busy;100000000000;100000000000;task-7;0"%string)
    as [Hres [[d ex] [Hkv [Hvalue Hexpires]]]];
    [reflexivity | reflexivity |].
  cbn [value expires] in Hvalue, Hexpires.
  rewrite Hvalue, Hexpires in Hkv by (split; reflexivity).
  split; [exact Hres |]. split; [exact Hkv |]. split; [reflexivity |].
  destruct (@Heartbeat_self_healing Concrete.ports NewRegistry
              "router-9" "idle" ""
              (Concrete.world (100 * time.Second) ∅))
    as [_ [Hwrite' _]]; [reflexivity | reflexivity |].
  destruct (Hwrite' "router-9;router;idle;100000000000;100000000000;;0"%string)
    as [Hres' [[d' ex'] [Hkv' [Hvalue' Hexpires']]]];
    [reflexivity | reflexivity |].
  cbn [value expires] in Hvalue', Hexpires'.
  rewrite Hvalue', Hexpires' in Hkv' by (split; reflexivity).
  split; [exact Hres' | exact Hkv'].
Defined.

(** C2 fails on the code: Heartbeat takes the auto-registration branch on
    every error of the read, not only on an absent record.  With a Router
    worker stored under [gw-7] and the read failing on the transport,
    Heartbeat returns no error, logs the auto-registration and replaces the
    record by a fresh Executor record registered now.  The same happens when
    the stored payload does not decode. *)
Theorem Heartbeat_read_failure_not_surfaced :
  let stored :=
    mkWorkerInfo "gw-7" "router" "idle" (10 * time.Second) (95 * time.Second)
                 "" 3 in
  let m := Concrete.put stored (125 * time.Second) ∅ in
  let healthy := Concrete.world (100 * time.Second) m in
  let broken := Concrete.with_get_fault healthy (getWorkerKey "gw-7") in
  let garbled :=
    Concrete.world (100 * time.Second)
      (<[getWorkerKey "gw-7" := mkEntry "{" (125 * time.Second)]> ∅) in
  let rewritten :=
    Some (mkEntry "gw-7;executor;busy;100000000000;100000000000;task-9;0"
                  (130 * time.Second)) in
  fst (GetWorker NewRegistry "gw-7" healthy) = Ok stored
  /\ fst (GetWorker NewRegistry "gw-7" broken)
     = Err (wrapError "failed to get worker: " Concrete.ioError)
  /\ fst (Heartbeat NewRegistry "gw-7" "busy" "task-9" broken) = None
  /\ kv (snd (Heartbeat NewRegistry "gw-7" "busy" "task-9" broken))
       !! getWorkerKey "gw-7" = rewritten
  /\ logs (snd (Heartbeat NewRegistry "gw-7" "busy" "task-9" broken))
     = [autoRegisterWarn "gw-7"]
  /\ fst (GetWorker NewRegistry "gw-7" garbled)
     = Err (wrapError "failed to unmarshal worker info: "
              (errorString "json: unexpected end of input"))
  /\ fst (Heartbeat NewRegistry "gw-7" "busy" "task-9" garbled) = None
  /\ kv (snd (Heartbeat NewRegistry "gw-7" "busy" "task-9" garbled))
       !! getWorkerKey "gw-7" = rewritten.
Proof. cbv zeta. evaluate. Qed.

(** ** Register, then GetWorker *)

(** C6: a record that the codec writes and reads back unchanged, registered
    and then read within ttl, comes back equal to itself in every field
    except possibly the status, which reads Unhealthy when the record's own
    last heartbeat is older than ttl.  The ttl is a positive whole number of
    milliseconds, and the read may happen at any instant [t] from the
    registration up to, but excluding, one ttl after it. *)
Theorem Register_GetWorker_roundtrip `{Ports} (r : Registry) (rec : WorkerInfo)
    (data : string) (w : World) (t : time.Time) :
  whole_milliseconds (ttl r) ->
  json_Marshal rec = Ok data ->
  json_Unmarshal data = Ok rec ->
  fst (Register r rec w) = None ->
  get_fault w (getWorkerKey (ID rec)) = None ->
  clock w <= t < clock w + ttl r ->
  let w1 := with_clock (snd (Register r rec w)) t in
  exists got,
    fst (GetWorker r (ID rec) w1) = Ok got
    /\ ID got = ID rec
    /\ Type_ got = Type_ rec
    /\ RegisteredAt got = RegisteredAt rec
    /\ LastHeartbeat got = LastHeartbeat rec
    /\ CurrentTask got = CurrentTask rec
    /\ PendingTasks got = PendingTasks rec
    /\ (Status got = Status rec \/ Status got = WorkerStatusUnhealthy)
    /\ (time.Sub t (LastHeartbeat rec) <= ttl r -> got = rec).
Proof.
  intros _ Hm Hu Hreg Hf Ht. cbv zeta.
  rewrite Register_run, Hm in Hreg |- *.
  destruct (set_fault w (getWorkerKey (ID rec))); [discriminate |].
  cbn [snd].
  rewrite GetWorker_read by exact Hf.
  unfold live. cbn [with_clock with_logs with_kv kv clock].
  rewrite lookup_insert_eq. cbn [expires value].
  destruct (Z.ltb_spec t (clock w + ttl r)) as [_ | Hge]; [| lia].
  rewrite Hu.
  destruct (Z.ltb_spec (ttl r) (time.Sub t (LastHeartbeat rec))) as [Hold | Hyoung].
  - exists (set_Status rec WorkerStatusUnhealthy).
    repeat split; try reflexivity; [now right | lia].
  - exists rec. repeat split; try reflexivity. now left.
Qed.

Lemma Register_GetWorker_roundtrip_witness :
  let rec :=
    mkWorkerInfo "executor-1" "executor" "idle" (100 * time.Second)
                 (100 * time.Second) "" 0 in
  let w := Concrete.world (100 * time.Second) ∅ in
  whole_milliseconds (ttl NewRegistry)
  /\ fst (Register NewRegistry rec w) = None
  /\ fst (GetWorker NewRegistry "executor-1"
            (with_clock (snd (Register NewRegistry rec w)) (129 * time.Second)))
     = Ok rec.
Proof.
  cbv zeta. split; [split; reflexivity |]. split; [reflexivity |].
  destruct (@Register_GetWorker_roundtrip Concrete.ports NewRegistry
              (mkWorkerInfo "executor-1" "executor" "idle" (100 * time.Second)
                            (100 * time.Second) "" 0)
              "executor-1;executor;idle;100000000000;100000000000;;0"
              (Concrete.world (100 * time.Second) ∅) (129 * time.Second))
    as [got [Hgot [_ [_ [_ [_ [_ [_ [_ Hsame]]]]]]]]];
    [split; reflexivity | reflexivity | reflexivity | reflexivity | reflexivity
    | vm_compute; split; [discriminate | reflexivity] |].
  cbn [ID] in Hgot. rewrite Hgot, Hsame; [reflexivity | vm_compute; discriminate].
Defined.

(** ** ListWorkers *)

Lemma typeMatch_In t0 types : typeMatch t0 types = true <-> In t0 types.
Proof.
  induction types as [| t rest IH]; cbn [typeMatch In].
  - split; [discriminate | contradiction].
  - destruct (String.eqb_spec t0 t) as [-> | Hne].
    + split; [now left | reflexivity].
    + rewrite IH. split; [now right | intros [Heq | Hin]; [congruence | exact Hin]].
Qed.

Lemma statusMatch_In s0 statuses : statusMatch s0 statuses = true <-> In s0 statuses.
Proof.
  induction statuses as [| s rest IH]; cbn [statusMatch In].
  - split; [discriminate | contradiction].
  - destruct (String.eqb_spec s0 s) as [-> | Hne].
    + split; [now left | reflexivity].
    + rewrite IH. split; [now right | intros [Heq | Hin]; [congruence | exact Hin]].
Qed.

Lemma nonempty_or_nil {A} (l : list A) (P : Prop) :
  ((0 <? length l)%nat = false \/ P) <-> (l = [] \/ P).
Proof.
  destruct l; cbn.
  - split; intros _; now left.
  - split; (intros [Hn | HP]; [discriminate | now right]).
Qed.

(** [matchesFilter] decides the three predicates of the filter. *)
Lemma matchesFilter_iff (worker : WorkerInfo) (filter : WorkerFilter)
    (isHealthy : bool) :
  matchesFilter worker filter isHealthy = true <->
  (Types filter = [] \/ In (Type_ worker) (Types filter))
  /\ (Statuses filter = [] \/ In (Status worker) (Statuses filter))
  /\ (HealthyOnly filter = true -> isHealthy = true).
Proof.
  unfold matchesFilter.
  rewrite <- (nonempty_or_nil (Types filter)),
          <- (nonempty_or_nil (Statuses filter)),
          <- typeMatch_In, <- statusMatch_In.
  destruct (0 <? length (Types filter))%nat,
           (typeMatch (Type_ worker) (Types filter)),
           (0 <? length (Statuses filter))%nat,
           (statusMatch (Status worker) (Statuses filter)),
           (HealthyOnly filter), isHealthy; cbn;
    intuition (auto; discriminate).
Qed.

Lemma recomputed_Type `{Ports} r now stored :
  Type_ (recomputed r now stored) = Type_ stored.
Proof.
  unfold recomputed.
  now destruct (ttl r <? time.Sub now (LastHeartbeat stored)).
Qed.

(** The loop's verdict on [key] is the spec's filter on the stored record. *)
Lemma listed_iff `{Ports} r filter w key data stored :
  get_fault w key = None ->
  live w key = Some data ->
  json_Unmarshal data = Ok stored ->
  (listed r filter w key = Some (recomputed r (clock w) stored)
   <-> passes_filter r (clock w) filter stored)
  /\ (listed r filter w key = None
      <-> ~ passes_filter r (clock w) filter stored).
Proof.
  intros Hf Hl Hd. unfold listed, passes_filter. rewrite Hf, Hl, Hd. cbv zeta.
  pose proof (matchesFilter_iff (recomputed r (clock w) stored) filter
                (time.Sub (clock w) (LastHeartbeat stored) <=? ttl r)) as Hm.
  rewrite recomputed_Type, Z.leb_le in Hm.
  destruct (matchesFilter (recomputed r (clock w) stored) filter
              (time.Sub (clock w) (LastHeartbeat stored) <=? ttl r)).
  - split; [tauto |]. split; [discriminate |].
    intros Hn. exfalso. apply Hn. now apply Hm.
  - split.
    + split; [discriminate |]. intros Hp. apply Hm in Hp. discriminate.
    + split; [| reflexivity]. intros _ Hp. apply Hm in Hp. discriminate.
Qed.

(** The listing loop reads every key once, appends the verdicts in order and
    changes nothing but the log. *)
Lemma ListWorkers_loop_run `{Ports} r filter keys :
  forall workers w,
  exists l,
    ListWorkers_loop r filter keys workers w
    = ((workers ++ omap (listed r filter w) keys)%list, with_logs w l).
Proof.
  induction keys as [| key rest IH]; intros workers w.
  - exists (logs w). cbn. rewrite app_nil_r. now destruct w.
  - cbn [ListWorkers_loop omap list_omap]. unfold bind at 1. unfold client_Get.
    unfold listed at 1.
    destruct (get_fault w key) as [e |].
    + destruct (is_redis_Nil e).
      * apply IH.
      * unfold bind, logger_Warn, logger_log.
        destruct (IH workers
                    (with_logs w
                       (logs w ++
                        [mkLogEntry WarnLevel "failed to get worker"
                           [zap_String "key" key; zap_Error e]])))
          as [l Hl].
        exists l. exact Hl.
    + destruct (live w key) as [data |]; [| apply IH].
      destruct (json_Unmarshal data) as [stored | e].
      * unfold time_Since, time_Now, ret, recomputed, bind. cbv beta iota zeta.
        rewrite Z.leb_antisym, negb_involutive.
        destruct (matchesFilter _ filter _); cbn [negb].
        -- destruct (IH (workers ++
                         [if ttl r <? time.Sub (clock w) (LastHeartbeat stored)
                          then set_Status stored WorkerStatusUnhealthy
                          else stored])%list w) as [l Hl].
           exists l. rewrite Hl, <- app_assoc. reflexivity.
        -- apply IH.
      * unfold bind, logger_Warn, logger_log.
        destruct (IH workers
                    (with_logs w
                       (logs w ++
                        [mkLogEntry WarnLevel "failed to unmarshal worker"
                           [zap_String "key" key; zap_Error e]])))
          as [l Hl].
        exists l. exact Hl.
Qed.

(** ListWorkers as a whole: the scan's failure wrapped, or the verdicts on
    the scanned keys. *)
Lemma ListWorkers_run `{Ports} r filter w :
  let pattern := (workerKeyPrefix ++ "*")%string in
  (exists c e,
      scan_fault w c = Some e
      /\ ListWorkers r filter w
         = (Err (wrapError "failed to scan worker keys: " e), w))
  \/ (exists l,
      ListWorkers r filter w
      = (Ok (omap (listed r filter w) (scan_view w pattern)), with_logs w l)).
Proof.
  cbv zeta. unfold ListWorkers, bind.
  destruct (scanKeys_spec (workerKeyPrefix ++ "*") w) as [res [Hrun [Hres _]]].
  rewrite Hrun.
  destruct Hres as [-> | [c [e [Hc ->]]]].
  - right.
    destruct (ListWorkers_loop_run r filter
                (scan_view w (workerKeyPrefix ++ "*")) [] w) as [l Hl].
    exists l. rewrite Hl. reflexivity.
  - left. exists c, e. now split.
Qed.

Lemma recomputed_LastHeartbeat `{Ports} r now stored :
  LastHeartbeat (recomputed r now stored) = LastHeartbeat stored.
Proof.
  unfold recomputed.
  now destruct (ttl r <? time.Sub now (LastHeartbeat stored)).
Qed.

(** The filter looks at a stored record only through what readers see. *)
Lemma passes_filter_recomputed `{Ports} r now filter s1 s2 :
  recomputed r now s1 = recomputed r now s2 ->
  passes_filter r now filter s1 -> passes_filter r now filter s2.
Proof.
  intros Heq. unfold passes_filter.
  rewrite <- (recomputed_Type r now s1), <- (recomputed_LastHeartbeat r now s1).
  rewrite <- (recomputed_Type r now s2), <- (recomputed_LastHeartbeat r now s2).
  now rewrite Heq.
Qed.

Lemma listed_Some_inv `{Ports} r filter w key worker :
  listed r filter w key = Some worker ->
  exists data stored,
    get_fault w key = None
    /\ live w key = Some data
    /\ json_Unmarshal data = Ok stored
    /\ worker = recomputed r (clock w) stored
    /\ passes_filter r (clock w) filter stored.
Proof.
  intros Hl.
  destruct (get_fault w key) as [e |] eqn:Hf;
    [unfold listed in Hl; rewrite Hf in Hl; discriminate |].
  destruct (live w key) as [data |] eqn:Hv;
    [| unfold listed in Hl; rewrite Hf, Hv in Hl; discriminate].
  destruct (json_Unmarshal data) as [stored | e] eqn:Hd;
    [| unfold listed in Hl; rewrite Hf, Hv, Hd in Hl; discriminate].
  destruct (listed_iff r filter w key data stored Hf Hv Hd) as [Hsome _].
  assert (worker = recomputed r (clock w) stored) as ->.
  { unfold listed in Hl. rewrite Hf, Hv, Hd in Hl. cbv zeta in Hl.
    destruct (matchesFilter _ filter _); [now injection Hl | discriminate]. }
  exists data, stored.
  repeat (split; [first [assumption | reflexivity] |]). now apply Hsome.
Qed.

(** C7: with the scan succeeding, ListWorkers returns a list in which the
    record decoded from a readable worker key occurs, with its status
    recomputed, if and only if the three predicates of the filter hold: the
    type set is empty or has the record's type, the status set is empty or
    has the recomputed status, and under healthy_only the heartbeat age does
    not exceed ttl.  Nothing else is in the list. *)
Theorem ListWorkers_filter `{Ports} (r : Registry) (filter : WorkerFilter)
    (w : World) :
  (forall c, scan_fault w c = None) ->
  let pattern := (workerKeyPrefix ++ "*")%string in
  exists workers,
    fst (ListWorkers r filter w) = Ok workers
    /\ (forall key data stored,
          glob pattern key = true ->
          get_fault w key = None ->
          live w key = Some data ->
          json_Unmarshal data = Ok stored ->
          (In (recomputed r (clock w) stored) workers
           <-> passes_filter r (clock w) filter stored))
    /\ (forall worker,
          In worker workers ->
          exists key data stored,
            glob pattern key = true
            /\ get_fault w key = None
            /\ live w key = Some data
            /\ json_Unmarshal data = Ok stored
            /\ worker = recomputed r (clock w) stored
            /\ passes_filter r (clock w) filter stored).
Proof.
  intros Hscan. cbv zeta.
  destruct (ListWorkers_run r filter w) as [[c [e [Hc _]]] | [l Hrun]];
    [rewrite Hscan in Hc; discriminate |].
  rewrite Hrun. cbn [fst]. eexists. split; [reflexivity |]. split.
  - intros key data stored Hg Hf Hv Hd.
    rewrite <- list_elem_of_In, list_elem_of_omap. split.
    + intros [key' [_ Hl]].
      apply listed_Some_inv in Hl
        as [data' [stored' [_ [_ [_ [Heq Hpass]]]]]].
      now apply (passes_filter_recomputed r (clock w) filter stored' stored).
    + intros Hpass. exists key. split.
      * apply scan_view_elem. split; [exact Hg | now exists data].
      * now apply (listed_iff r filter w key data stored Hf Hv Hd).
  - intros worker Hin.
    apply list_elem_of_In, list_elem_of_omap in Hin as [key [Hkey Hl]].
    apply scan_view_elem in Hkey as [Hg _].
    apply listed_Some_inv in Hl as [data [stored Hl]].
    exists key, data, stored. now split.
Qed.

Example ListWorkers_executor_healthy :
  fst (ListWorkers NewRegistry (mkWorkerFilter ["executor"] [] true) exampleWorld)
  = Ok [exampleA].
Proof. vm_compute. reflexivity. Qed.

Lemma ListWorkers_filter_witness :
  let filter := mkWorkerFilter ["executor"%string] [] true in
  exists workers,
    fst (ListWorkers NewRegistry filter exampleWorld) = Ok workers
    /\ (In (recomputed NewRegistry (clock exampleWorld) exampleA) workers
        <-> passes_filter NewRegistry (clock exampleWorld) filter exampleA)
    /\ (In (recomputed NewRegistry (clock exampleWorld) exampleC) workers
        <-> passes_filter NewRegistry (clock exampleWorld) filter exampleC).
Proof.
  cbv zeta.
  destruct (@ListWorkers_filter Concrete.ports NewRegistry
              (mkWorkerFilter ["executor"%string] [] true) exampleWorld)
    as [workers [Hrun [Hiff _]]]; [intros c; reflexivity |].
  exists workers. split; [exact Hrun |]. split.
  - apply (Hiff (getWorkerKey "A")
                "A;executor;idle;90000000000;95000000000;;2"%string);
      reflexivity.
  - apply (Hiff (getWorkerKey "C")
                "C;executor;busy;10000000000;60000000000;t2;5"%string);
      reflexivity.
Defined.

(** ** GetWorkerStats *)

Lemma count_status_cons s worker rest :
  count_status s (worker :: rest)
  = (if String.eqb (Status worker) s then 1 else 0) + count_status s rest.
Proof.
  unfold count_status. cbn [List.filter].
  destruct (String.eqb (Status worker) s); cbn [length]; lia.
Qed.

Lemma count_status_bounds s workers :
  0 <= count_status s workers <= Z.of_nat (length workers).
Proof.
  unfold count_status. split; [lia |].
  apply Nat2Z.inj_le, List.filter_length_le.
Qed.

Lemma length_omap_le {A B} (f : A -> option B) (l : list A) :
  (length (omap f l) <= length l)%nat.
Proof.
  induction l as [| x l IH]; cbn; [lia |].
  destruct (f x); cbn; lia.
Qed.

(** The aggregation loop adds, modulo 2^64, the status counts and the sum of
    pending tasks to the running totals. *)
Lemma GetWorkerStats_loop_spec `{Ports} :
  WorkerStatusIdle <> WorkerStatusBusy ->
  WorkerStatusIdle <> WorkerStatusUnhealthy ->
  WorkerStatusBusy <> WorkerStatusUnhealthy ->
  forall workers t n a b c d,
    GetWorkerStats_loop workers
      (mkWorkerStats t n (GoInt.wrap a) (GoInt.wrap b) (GoInt.wrap c)
                     (GoInt.wrap d))
    = mkWorkerStats t n
        (GoInt.wrap (a + count_status WorkerStatusIdle workers))
        (GoInt.wrap (b + count_status WorkerStatusBusy workers))
        (GoInt.wrap (c + count_status WorkerStatusUnhealthy workers))
        (GoInt.wrap (d + sum_pending workers)).
Proof.
  intros Hib Hiu Hbu.
  induction workers as [| worker rest IH]; intros t n a b c d.
  - cbn [GetWorkerStats_loop sum_pending]. unfold count_status. cbn.
    now rewrite !Z.add_0_r.
  - cbn [GetWorkerStats_loop sum_pending]. rewrite !count_status_cons.
    unfold stats_step.
    destruct (String.eqb_spec (Status worker) WorkerStatusIdle) as [Hi | Hi].
    + destruct (String.eqb_spec (Status worker) WorkerStatusBusy);
        [congruence |].
      destruct (String.eqb_spec (Status worker) WorkerStatusUnhealthy);
        [congruence |].
      cbn [StatsType TotalWorkers IdleWorkers BusyWorkers UnhealthyWorkers
           TotalPendingTasks].
      rewrite !add_wrap_l, IH. f_equal; f_equal; lia.
    + destruct (String.eqb_spec (Status worker) WorkerStatusBusy) as [Hb | Hb].
      * destruct (String.eqb_spec (Status worker) WorkerStatusUnhealthy);
          [congruence |].
        cbn [StatsType TotalWorkers IdleWorkers BusyWorkers UnhealthyWorkers
             TotalPendingTasks].
        rewrite !add_wrap_l, IH. f_equal; f_equal; lia.
      * destruct (String.eqb_spec (Status worker) WorkerStatusUnhealthy);
          cbn [StatsType TotalWorkers IdleWorkers BusyWorkers UnhealthyWorkers
               TotalPendingTasks];
          rewrite !add_wrap_l, IH; f_equal; f_equal; lia.
Qed.

(** ListWorkers never returns more records than the store holds keys. *)
Lemma ListWorkers_length `{Ports} r filter w workers :
  fst (ListWorkers r filter w) = Ok workers ->
  (length workers <= size (kv w))%nat.
Proof.
  destruct (ListWorkers_run r filter w) as [[c [e [_ Hrun]]] | [l Hrun]];
    rewrite Hrun; cbn [fst]; [discriminate |].
  intros Hok. injection Hok as <-.
  etransitivity; [apply length_omap_le | apply scan_view_length].
Qed.

(** C8: GetWorkerStats is the aggregation of ListWorkers restricted to the
    type, and does no I/O of its own: it leaves the world as ListWorkers
    leaves it and passes a listing failure on unchanged.  TotalWorkers is
    the number of listed records, the three status counters count the
    listed records by recomputed status, and TotalPendingTasks is the sum of
    their pending tasks in 64-bit arithmetic, hence the sum itself whenever
    that fits in an int. *)
Theorem GetWorkerStats_aggregates `{Ports} (r : Registry)
    (workerType : WorkerType) (w : World) :
  WorkerStatusIdle <> WorkerStatusBusy ->
  WorkerStatusIdle <> WorkerStatusUnhealthy ->
  WorkerStatusBusy <> WorkerStatusUnhealthy ->
  Z.of_nat (size (kv w)) <= GoInt.max_int ->
  let listing := ListWorkers r (mkWorkerFilter [workerType] [] false) w in
  match fst listing with
  | Err e => GetWorkerStats r workerType w = (Err e, snd listing)
  | Ok workers =>
      exists stats,
        GetWorkerStats r workerType w = (Ok stats, snd listing)
        /\ StatsType stats = workerType
        /\ TotalWorkers stats = Z.of_nat (length workers)
        /\ IdleWorkers stats = count_status WorkerStatusIdle workers
        /\ BusyWorkers stats = count_status WorkerStatusBusy workers
        /\ UnhealthyWorkers stats = count_status WorkerStatusUnhealthy workers
        /\ TotalPendingTasks stats = GoInt.wrap (sum_pending workers)
        /\ (GoInt.in_range (sum_pending workers) ->
            TotalPendingTasks stats = sum_pending workers)
  end.
Proof.
  intros Hib Hiu Hbu Hsize. cbv zeta.
  pose proof (ListWorkers_length r (mkWorkerFilter [workerType] [] false) w)
    as Hlen.
  unfold GetWorkerStats, bind.
  destruct (ListWorkers r (mkWorkerFilter [workerType] [] false) w)
    as [[workers | e] w'] eqn:Hrun; cbn [fst snd] in *; [| reflexivity].
  specialize (Hlen workers eq_refl).
  assert (forall s, GoInt.wrap (0 + count_status s workers)
                    = count_status s workers) as Hcount.
  { intros s. pose proof (count_status_bounds s workers).
    apply wrap_in_range. unfold GoInt.in_range, GoInt.min_int. cbn. lia. }
  eexists. split; [reflexivity |].
  change (mkWorkerStats workerType (Z.of_nat (length workers)) 0 0 0 0)
    with (mkWorkerStats workerType (Z.of_nat (length workers)) (GoInt.wrap 0)
            (GoInt.wrap 0) (GoInt.wrap 0) (GoInt.wrap 0)).
  rewrite (GetWorkerStats_loop_spec Hib Hiu Hbu).
  cbn [StatsType TotalWorkers IdleWorkers BusyWorkers UnhealthyWorkers
       TotalPendingTasks].
  rewrite !Hcount, Z.add_0_l.
  repeat split. intros Hr. now apply wrap_in_range.
Qed.

Lemma GetWorkerStats_aggregates_witness :
  Z.of_nat (size (kv statsWorld)) <= GoInt.max_int
  /\ exists stats,
       fst (GetWorkerStats NewRegistry "executor" statsWorld) = Ok stats
       /\ TotalWorkers stats = 3
       /\ IdleWorkers stats = 1
       /\ BusyWorkers stats = 1
       /\ UnhealthyWorkers stats = 1
       /\ TotalPendingTasks stats = 7.
Proof.
  split; [vm_compute; discriminate |].
  assert (Z.of_nat (size (kv statsWorld)) <= GoInt.max_int) as Hsize
    by (vm_compute; discriminate).
  pose proof (@GetWorkerStats_aggregates Concrete.ports NewRegistry
                "executor" statsWorld
                ltac:(discriminate) ltac:(discriminate) ltac:(discriminate)
                Hsize) as Hthm.
  cbv zeta in Hthm.
  assert (fst (ListWorkers NewRegistry
                 (mkWorkerFilter (@cons WorkerType "executor" (@nil WorkerType))
                                 (@nil WorkerStatus) false)
                 statsWorld)
          = Ok [set_Status exampleC "unhealthy"; exampleA; exampleD]) as Hlist
    by (vm_compute; reflexivity).
  rewrite Hlist in Hthm.
  destruct Hthm as [stats [Hrun [_ [Ht [Hi [Hb [Hu [_ Hp]]]]]]]].
  exists stats. rewrite Hrun.
  split; [reflexivity |]. split; [exact Ht |]. split; [exact Hi |].
  split; [exact Hb |]. split; [exact Hu |].
  apply Hp. vm_compute. split; discriminate.
Defined.

(** ** CleanupStaleWorkers *)

(** One turn of the sweep. *)
Lemma CleanupStaleWorkers_loop_cons `{Ports} timeout key rest cleaned w :
  CleanupStaleWorkers_loop timeout (key :: rest) cleaned w =
  match stale timeout w key with
  | None => CleanupStaleWorkers_loop timeout rest cleaned w
  | Some worker =>
      match del_fault w key with
      | Some e =>
          CleanupStaleWorkers_loop timeout rest cleaned
            (with_logs w (logs w ++ [deleteWarn worker e]))
      | None =>
          CleanupStaleWorkers_loop timeout rest (GoInt.add cleaned 1)
            (with_logs (with_kv w (delete key (kv w)))
               (logs w ++
                [cleanedInfo worker
                   (time.Sub (clock w) (LastHeartbeat worker))]))
      end
  end.
Proof.
  cbn [CleanupStaleWorkers_loop]. unfold stale, bind at 1, client_Get.
  destruct (get_fault w key) as [e |]; [reflexivity |].
  destruct (live w key) as [data |]; [| reflexivity].
  destruct (json_Unmarshal data) as [worker | e]; [| reflexivity].
  unfold time_Since, time_Now, ret, client_Del, logger_Warn, logger_Info,
    logger_log, bind.
  cbv beta iota.
  destruct (timeout <? time.Sub (clock w) (LastHeartbeat worker));
    [| reflexivity].
  destruct (del_fault w key) as [e |]; reflexivity.
Qed.

(** Deleting one key does not change the verdict on another. *)
Lemma stale_delete_ne `{Ports} timeout w l key k :
  k <> key ->
  stale timeout (with_logs (with_kv w (delete key (kv w))) l) k
  = stale timeout w k.
Proof.
  intros Hne. unfold stale, live. cbn [get_fault kv clock with_logs with_kv].
  rewrite lookup_delete_ne by congruence. reflexivity.
Qed.

Lemma swept_delete_ne `{Ports} timeout w l key k :
  k <> key ->
  swept timeout (with_logs (with_kv w (delete key (kv w))) l) k
  = swept timeout w k.
Proof.
  intros Hne. unfold swept. now rewrite stale_delete_ne.
Qed.

Lemma foldr_delete_delete (m : gmap string Entry) (key : string)
    (keys : list string) :
  foldr delete (delete key m) keys = delete key (foldr delete m keys).
Proof.
  induction keys as [| k keys IH]; cbn [foldr]; [reflexivity |].
  rewrite IH. apply delete_delete.
Qed.

Lemma lookup_foldr_delete (m : gmap string Entry) (keys : list string)
    (k : string) :
  foldr delete m keys !! k = if decide (k ∈ keys) then None else m !! k.
Proof.
  induction keys as [| key keys IH]; cbn [foldr].
  - destruct (decide (k ∈ [])) as [Hin | _]; [| reflexivity].
    now apply elem_of_nil in Hin.
  - destruct (decide (k = key)) as [-> | Hne].
    + rewrite lookup_delete_eq.
      destruct (decide (key ∈ key :: keys)) as [_ | Hn]; [reflexivity |].
      exfalso. apply Hn. left.
    + rewrite lookup_delete_ne by congruence. rewrite IH.
      destruct (decide (k ∈ keys)) as [Hin | Hn];
        destruct (decide (k ∈ key :: keys)) as [Hin' | Hn']; try reflexivity;
        exfalso; rewrite elem_of_cons in *; tauto.
Qed.

Lemma wrap_range z : GoInt.in_range (GoInt.wrap z).
Proof.
  unfold GoInt.in_range, GoInt.min_int, GoInt.max_int, GoInt.wrap.
  pose proof (Z.mod_pos_bound (z + 2 ^ 63) (2 ^ 64) ltac:(lia)). lia.
Qed.

Lemma world_eta (w : World) : with_logs (with_kv w (kv w)) (logs w) = w.
Proof. now destruct w. Qed.

Lemma with_logs_app (w : World) (m : gmap string Entry) (l1 l2 : list LogEntry) :
  with_logs (with_kv (with_logs w (logs w ++ l1)) m)
            (logs (with_logs w (logs w ++ l1)) ++ l2)
  = with_logs (with_kv w m) (logs w ++ l1 ++ l2).
Proof. unfold with_logs, with_kv. cbn. now rewrite app_assoc. Qed.

Lemma with_logs_delete_app (w : World) (key : string) (keys : list string)
    (l1 l2 : list LogEntry) :
  let w1 := with_logs (with_kv w (delete key (kv w))) (logs w ++ l1) in
  with_logs (with_kv w1 (foldr delete (kv w1) keys)) (logs w1 ++ l2)
  = with_logs (with_kv w (delete key (foldr delete (kv w) keys)))
              (logs w ++ l1 ++ l2).
Proof.
  unfold with_logs, with_kv. cbn.
  now rewrite foldr_delete_delete, app_assoc.
Qed.

(** The sweep over distinct keys: the keys it deletes are those stale ones
    whose deletion the store accepts, the counter goes up by their number,
    and every refused deletion leaves a warning in the log. *)
Lemma CleanupStaleWorkers_loop_run `{Ports} timeout keys :
  NoDup keys ->
  forall cleaned w,
    GoInt.in_range cleaned ->
    exists l,
      CleanupStaleWorkers_loop timeout keys cleaned w
      = (GoInt.wrap
           (cleaned
            + Z.of_nat (length (List.filter (swept timeout w) keys))),
         with_logs
           (with_kv w
              (foldr delete (kv w) (List.filter (swept timeout w) keys)))
           (logs w ++ l))
      /\ (forall key worker e,
            key ∈ keys ->
            stale timeout w key = Some worker ->
            del_fault w key = Some e ->
            In (deleteWarn worker e) l).
Proof.
  induction keys as [| key rest IH]; intros Hnd cleaned w Hr.
  - exists []. split.
    + cbn. rewrite Z.add_0_r, wrap_in_range, app_nil_r by exact Hr.
      now rewrite world_eta.
    + intros key worker e Hin. now apply elem_of_nil in Hin.
  - apply NoDup_cons in Hnd as [Hnotin Hnd].
    rewrite CleanupStaleWorkers_loop_cons. cbn [List.filter].
    assert (swept timeout w key
            = match stale timeout w key, del_fault w key with
              | Some _, None => true
              | _, _ => false
              end) as Hsw by reflexivity.
    destruct (stale timeout w key) as [worker |] eqn:Hst.
    + destruct (del_fault w key) as [e |] eqn:Hdel; rewrite Hsw.
      * destruct (IH Hnd cleaned
                    (with_logs w (logs w ++ [deleteWarn worker e])) Hr)
          as [l [Hrun Hlog]].
        exists (deleteWarn worker e :: l). split.
        -- rewrite Hrun. f_equal. apply with_logs_app.
        -- intros k wk ek Hin Hk Hd.
           apply elem_of_cons in Hin as [-> | Hin].
           ++ left. congruence.
           ++ right. now apply (Hlog k wk ek).
      * destruct (IH Hnd (GoInt.add cleaned 1)
                    (with_logs (with_kv w (delete key (kv w)))
                       (logs w ++
                        [cleanedInfo worker
                           (time.Sub (clock w) (LastHeartbeat worker))]))
                    (wrap_range _))
          as [l [Hrun Hlog]].
        exists (cleanedInfo worker (time.Sub (clock w) (LastHeartbeat worker))
                  :: l).
        assert (List.filter
                  (swept timeout
                     (with_logs (with_kv w (delete key (kv w)))
                        (logs w ++
                         [cleanedInfo worker
                            (time.Sub (clock w) (LastHeartbeat worker))])))
                  rest
                = List.filter (swept timeout w) rest) as Hfilter.
        { apply List.filter_ext_in. intros k Hk.
          apply swept_delete_ne. intros ->.
          apply Hnotin. now apply list_elem_of_In. }
        split.
        -- rewrite Hrun, Hfilter. cbn [length foldr]. f_equal.
           ++ unfold GoInt.add. rewrite wrap_add_l. f_equal. lia.
           ++ apply with_logs_delete_app.
        -- intros k wk ek Hin Hk Hd.
           apply elem_of_cons in Hin as [-> | Hin]; [congruence |].
           right. apply (Hlog k wk ek Hin); [| exact Hd].
           rewrite stale_delete_ne; [exact Hk |].
           intros ->. contradiction.
    + rewrite Hsw. destruct (IH Hnd cleaned w Hr) as [l [Hrun Hlog]].
      exists l. split; [exact Hrun |].
      intros k wk ek Hin Hk Hd.
      apply elem_of_cons in Hin as [-> | Hin]; [congruence |].
      now apply (Hlog k wk ek).
Qed.

(** The sweep as a whole: the scan's failure wrapped and nothing touched, or
    the count of the deletions made. *)
Lemma CleanupStaleWorkers_run `{Ports} r timeout w :
  let keys := scan_view w (workerKeyPrefix ++ "*") in
  (exists c e,
      scan_fault w c = Some e
      /\ CleanupStaleWorkers r timeout w
         = ((0, Some (wrapError "failed to scan worker keys: " e)), w))
  \/ (exists l,
      CleanupStaleWorkers r timeout w
      = ((GoInt.wrap
            (Z.of_nat (length (List.filter (swept timeout w) keys))), None),
         with_logs
           (with_kv w
              (foldr delete (kv w) (List.filter (swept timeout w) keys)))
           (logs w ++ l))
      /\ (forall key worker e,
            key ∈ keys ->
            stale timeout w key = Some worker ->
            del_fault w key = Some e ->
            In (deleteWarn worker e) l)).
Proof.
  cbv zeta. unfold CleanupStaleWorkers, bind.
  destruct (scanKeys_spec (workerKeyPrefix ++ "*") w) as [res [Hrun [Hres _]]].
  rewrite Hrun.
  destruct Hres as [-> | [c [e [Hc ->]]]].
  - right.
    destruct (CleanupStaleWorkers_loop_run timeout
                (scan_view w (workerKeyPrefix ++ "*"))
                (scan_view_NoDup w _) 0 w) as [l [Hl Hlog]].
    { unfold GoInt.in_range, GoInt.min_int, GoInt.max_int. lia. }
    exists l. split; [| exact Hlog].
    rewrite Hl. reflexivity.
  - left. exists c, e. now split.
Qed.

Lemma stale_Some_iff `{Ports} timeout w key worker :
  get_fault w key = None ->
  (stale timeout w key = Some worker <->
   exists data,
     live w key = Some data
     /\ json_Unmarshal data = Ok worker
     /\ timeout < time.Sub (clock w) (LastHeartbeat worker)).
Proof.
  intros Hf. unfold stale. rewrite Hf.
  destruct (live w key) as [data |].
  - destruct (json_Unmarshal data) as [worker' | e] eqn:Hd.
    + destruct (Z.ltb_spec timeout (time.Sub (clock w) (LastHeartbeat worker'))).
      * split.
        -- intros Heq. injection Heq as <-. now exists data.
        -- intros [data' [Hl [Hd' _]]]. injection Hl as <-. congruence.
      * split; [discriminate |].
        intros [data' [Hl [Hd' Hage]]]. injection Hl as <-.
        rewrite Hd in Hd'. injection Hd' as <-. lia.
    + split; [discriminate |].
      intros [data' [Hl [Hd' _]]]. injection Hl as <-. congruence.
  - split; [discriminate |]. intros [data [Hl _]]. discriminate.
Qed.

Lemma stale_live `{Ports} timeout w key worker :
  stale timeout w key = Some worker -> is_Some (live w key).
Proof.
  unfold stale. destruct (get_fault w key); [discriminate |].
  destruct (live w key) as [data |]; [now exists data | discriminate].
Qed.

Lemma sweep_list_elem `{Ports} timeout w key :
  key ∈ sweep_list timeout w <->
  glob (workerKeyPrefix ++ "*") key = true /\ swept timeout w key = true.
Proof.
  unfold sweep_list. rewrite list_elem_of_In, List.filter_In, <- list_elem_of_In.
  rewrite scan_view_elem. split.
  - intros [[Hg _] Hs]. now split.
  - intros [Hg Hs]. split; [| exact Hs]. split; [exact Hg |].
    unfold swept in Hs.
    destruct (stale timeout w key) as [worker |] eqn:Hst; [| discriminate].
    now apply (stale_live timeout w key worker).
Qed.

Lemma sweep_list_NoDup `{Ports} timeout w : NoDup (sweep_list timeout w).
Proof.
  apply NoDup_ListNoDup, List.NoDup_filter, NoDup_ListNoDup, scan_view_NoDup.
Qed.

Lemma sweep_list_length `{Ports} timeout w :
  Z.of_nat (size (kv w)) <= GoInt.max_int ->
  GoInt.wrap (Z.of_nat (length (sweep_list timeout w)))
  = Z.of_nat (length (sweep_list timeout w)).
Proof.
  intros Hsize. apply wrap_in_range.
  pose proof (List.filter_length_le (swept timeout w)
                (scan_view w (workerKeyPrefix ++ "*"))) as Hle.
  pose proof (scan_view_length w (workerKeyPrefix ++ "*")) as Hle'.
  unfold sweep_list, GoInt.in_range, GoInt.min_int. cbn. lia.
Qed.

(** C1, as the spec has it, fails: with the deletion of the stale record C
    refused by the store, the sweep reports success, a count of 0 and no
    error, and C is still stored. *)
Lemma CleanupStaleWorkers_swallows_delete_failure_counterexample :
  let timeout := 30 * time.Second in
  let key := getWorkerKey "C" in
  let w := Concrete.with_del_fault exampleWorld key in
  let run := CleanupStaleWorkers NewRegistry timeout w in
  stale timeout w key = Some exampleC
  /\ del_fault w key = Some Concrete.ioError
  /\ fst run = (0, None)
  /\ kv (snd run) !! key = kv w !! key
  /\ logs (snd run) = [deleteWarn exampleC Concrete.ioError].
Proof. cbv zeta. evaluate. Qed.

(** C1 (amended): a delete failure never reaches the caller.  The sweep
    returns an error only when the key scan fails, and then with a count of
    0 and the store untouched.  Once the scan succeeds the error is nil and
    the count is the number of records actually deleted; a stale record
    whose deletion the store refuses stays stored, is not counted, and a
    warning carrying its id and the store's error is logged. *)
Theorem CleanupStaleWorkers_delete_failure_logged `{Ports} (r : Registry)
    (timeout : time.Duration) (w : World) :
  Z.of_nat (size (kv w)) <= GoInt.max_int ->
  let run := CleanupStaleWorkers r timeout w in
  let count := fst (fst run) in
  let err := snd (fst run) in
  let w' := snd run in
  (forall e,
      err = Some e ->
      count = 0 /\ w' = w
      /\ exists c e0,
           scan_fault w c = Some e0
           /\ e = wrapError "failed to scan worker keys: " e0)
  /\ ((forall c, scan_fault w c = None) ->
      err = None /\ count = Z.of_nat (length (sweep_list timeout w)))
  /\ (forall key worker e,
        (forall c, scan_fault w c = None) ->
        glob (workerKeyPrefix ++ "*") key = true ->
        stale timeout w key = Some worker ->
        del_fault w key = Some e ->
        err = None
        /\ (key ∉ sweep_list timeout w)
        /\ kv w' !! key = kv w !! key
        /\ In (deleteWarn worker e) (logs w')).
Proof.
  intros Hsize. cbv zeta.
  destruct (CleanupStaleWorkers_run r timeout w)
    as [[c [e0 [Hc Hrun]]] | [l [Hrun Hlog]]]; rewrite Hrun; cbn [fst snd].
  - split; [| split].
    + intros e He. injection He as <-.
      split; [reflexivity |]. split; [reflexivity |]. now exists c, e0.
    + intros Hscan. rewrite Hscan in Hc. discriminate.
    + intros key worker e Hscan. rewrite Hscan in Hc. discriminate.
  - fold (sweep_list timeout w). split; [| split].
    + discriminate.
    + intros _. split; [reflexivity |]. now apply sweep_list_length.
    + intros key worker e _ Hg Hst Hdel.
      assert (key ∉ sweep_list timeout w) as Hnot.
      { rewrite sweep_list_elem. intros [_ Hs].
        unfold swept in Hs. rewrite Hst, Hdel in Hs. discriminate. }
      split; [reflexivity |]. split; [exact Hnot |]. split.
      * cbn [kv with_logs with_kv]. rewrite lookup_foldr_delete.
        destruct (decide (key ∈ sweep_list timeout w)); [contradiction |].
        reflexivity.
      * cbn [logs with_logs]. apply in_or_app. right.
        apply (Hlog key worker e); [| exact Hst | exact Hdel].
        apply scan_view_elem. split; [exact Hg |].
        now apply (stale_live timeout w key worker).
Qed.

Lemma CleanupStaleWorkers_delete_failure_logged_witness :
  let timeout := 30 * time.Second in
  let key := getWorkerKey "C" in
  let w := Concrete.with_del_fault exampleWorld key in
  let run := CleanupStaleWorkers NewRegistry timeout w in
  Z.of_nat (size (kv w)) <= GoInt.max_int
  /\ snd (fst run) = None
  /\ kv (snd run) !! key = kv w !! key
  /\ In (deleteWarn exampleC Concrete.ioError) (logs (snd run)).
Proof.
  cbv zeta.
  assert (Z.of_nat (size (kv (Concrete.with_del_fault exampleWorld
                                (getWorkerKey "C")))) <= GoInt.max_int)
    as Hsize by (vm_compute; discriminate).
  split; [exact Hsize |].
  destruct (@CleanupStaleWorkers_delete_failure_logged Concrete.ports
              NewRegistry (30 * time.Second)
              (Concrete.with_del_fault exampleWorld (getWorkerKey "C")) Hsize)
    as [_ [_ Hfail]].
  destruct (Hfail (getWorkerKey "C") exampleC Concrete.ioError)
    as [Herr [_ [Hkept Hwarn]]];
    [intros c; reflexivity | reflexivity | vm_compute; reflexivity
    | reflexivity |].
  split; [exact Herr |]. split; [exact Hkept | exact Hwarn].
Defined.

(** On a healthy transport the sweep deletes the expired keys. *)
Lemma sweep_list_expired `{Ports} timeout w key :
  (forall k, get_fault w k = None) ->
  (forall k, del_fault w k = None) ->
  key ∈ sweep_list timeout w <-> expired timeout w key.
Proof.
  intros Hget Hdel. rewrite sweep_list_elem. unfold swept, expired.
  rewrite Hdel. split.
  - intros [Hg Hs].
    destruct (stale timeout w key) as [worker |] eqn:Hst; [| discriminate].
    apply (stale_Some_iff timeout w key worker (Hget key)) in Hst
      as [data [Hl [Hd Hage]]].
    now exists data, worker.
  - intros [data [worker [Hg [Hl [Hd Hage]]]]]. split; [exact Hg |].
    assert (stale timeout w key = Some worker) as ->; [| reflexivity].
    apply (stale_Some_iff timeout w key worker (Hget key)). now exists data.
Qed.

(** One second inside the timeout is not past it; one second beyond is. *)
Lemma age_around_timeout (now : time.Time) (timeout : time.Duration) :
  time.minDuration <= timeout < time.maxDuration ->
  time.Sub now (now - (timeout - time.Second)) <= timeout
  /\ timeout < time.Sub now (now - (timeout + time.Second)).
Proof.
  unfold time.Sub, time.minDuration, time.maxDuration, time.Second.
  intros Ht.
  replace (now - (now - (timeout - 1000000000))) with (timeout - 1000000000)
    by lia.
  replace (now - (now - (timeout + 1000000000))) with (timeout + 1000000000)
    by lia.
  split.
  - destruct (Z.ltb_spec (2 ^ 63 - 1) (timeout - 1000000000)); [lia |].
    destruct (Z.ltb_spec (timeout - 1000000000) (- 2 ^ 63)); lia.
  - destruct (Z.ltb_spec (2 ^ 63 - 1) (timeout + 1000000000)); [lia |].
    destruct (Z.ltb_spec (timeout + 1000000000) (- 2 ^ 63)); lia.
Qed.

(** With the scan succeeding, the sweep returns the number of keys it
    deleted and no error. *)
Lemma sweep_count `{Ports} r timeout w :
  (forall c, scan_fault w c = None) ->
  Z.of_nat (size (kv w)) <= GoInt.max_int ->
  fst (CleanupStaleWorkers r timeout w)
  = (Z.of_nat (length (sweep_list timeout w)), None).
Proof.
  intros Hscan Hsize.
  destruct (CleanupStaleWorkers_run r timeout w)
    as [[c [e0 [Hc _]]] | [l [Hrun _]]];
    [rewrite Hscan in Hc; discriminate |].
  rewrite Hrun. cbn [fst]. fold (sweep_list timeout w).
  now rewrite sweep_list_length.
Qed.

Lemma live_insert (w : World) (key k : string) (en : Entry) :
  live (with_kv w (<[key := en]> (kv w))) k
  = if decide (key = k)
    then (if clock w <? expires en then Some (value en) else None)
    else live w k.
Proof.
  unfold live. cbn [kv clock with_kv]. rewrite lookup_insert.
  now destruct (decide (key = k)).
Qed.

(** One more expired record under a fresh worker key is one more key for
    the sweep to delete. *)
Lemma sweep_list_insert `{Ports} timeout w key en worker :
  (forall k, get_fault w k = None) ->
  (forall k, del_fault w k = None) ->
  kv w !! key = None ->
  glob (workerKeyPrefix ++ "*") key = true ->
  clock w < expires en ->
  json_Unmarshal (value en) = Ok worker ->
  timeout < time.Sub (clock w) (LastHeartbeat worker) ->
  length (sweep_list timeout (with_kv w (<[key := en]> (kv w))))
  = S (length (sweep_list timeout w)).
Proof.
  intros Hget Hdel Hfresh Hg Hlive Hd Hage.
  assert (live w key = None) as Hnone by (unfold live; now rewrite Hfresh).
  assert (key ∉ sweep_list timeout w) as Hnotin.
  { rewrite (sweep_list_expired timeout w key Hget Hdel).
    intros [data [wk [_ [Hl _]]]]. congruence. }
  change (S (length (sweep_list timeout w)))
    with (length (key :: sweep_list timeout w)).
  apply Permutation_length, NoDup_Permutation.
  - apply sweep_list_NoDup.
  - apply NoDup_cons. split; [exact Hnotin | apply sweep_list_NoDup].
  - intros k. rewrite elem_of_cons.
    rewrite (sweep_list_expired timeout (with_kv w (<[key := en]> (kv w))) k
               Hget Hdel).
    rewrite (sweep_list_expired timeout w k Hget Hdel).
    unfold expired. cbn [clock with_kv]. split.
    + intros [data [wk [Hgk [Hl [Hdk Hak]]]]].
      rewrite live_insert in Hl.
      destruct (decide (key = k)) as [-> | Hne]; [now left |].
      right. now exists data, wk.
    + intros [-> | [data [wk [Hgk [Hl [Hdk Hak]]]]]].
      * exists (value en), worker. rewrite live_insert.
        destruct (decide (key = key)) as [_ | Hne]; [| contradiction].
        destruct (Z.ltb_spec (clock w) (expires en)); [| lia].
        now repeat split.
      * exists data, wk. rewrite live_insert.
        destruct (decide (key = k)) as [-> | Hne]; [congruence |].
        now repeat split.
Qed.

(** C9: on a healthy transport the sweep deletes exactly the worker records
    whose heartbeat age strictly exceeds the timeout and returns how many
    they are: such a record is gone afterwards, every other entry of the
    store is what it was, and the count is the number of deleted keys.  In
    particular a record whose last heartbeat is one second less than the
    timeout old stays, and one whose last heartbeat is one second more than
    the timeout old is removed; and storing one more such record under a
    fresh worker key makes the returned count exactly one larger. *)
Theorem CleanupStaleWorkers_threshold `{Ports} (r : Registry)
    (timeout : time.Duration) (w : World) :
  (forall c, scan_fault w c = None) ->
  (forall k, get_fault w k = None) ->
  (forall k, del_fault w k = None) ->
  Z.of_nat (size (kv w)) <= GoInt.max_int ->
  let run := CleanupStaleWorkers r timeout w in
  let count := fst (fst run) in
  let err := snd (fst run) in
  let w' := snd run in
  err = None
  /\ (forall key, expired timeout w key -> kv w' !! key = None)
  /\ (forall key, ~ expired timeout w key -> kv w' !! key = kv w !! key)
  /\ (exists removed,
        NoDup removed
        /\ (forall key, key ∈ removed <-> expired timeout w key)
        /\ count = Z.of_nat (length removed))
  /\ (forall key data worker,
        glob (workerKeyPrefix ++ "*") key = true ->
        live w key = Some data ->
        json_Unmarshal data = Ok worker ->
        time.minDuration <= timeout < time.maxDuration ->
        (LastHeartbeat worker = clock w - (timeout - time.Second) ->
         kv w' !! key = kv w !! key)
        /\ (LastHeartbeat worker = clock w - (timeout + time.Second) ->
            kv w' !! key = None))
  /\ (forall key en worker,
        kv w !! key = None ->
        glob (workerKeyPrefix ++ "*") key = true ->
        clock w < expires en ->
        json_Unmarshal (value en) = Ok worker ->
        timeout < time.Sub (clock w) (LastHeartbeat worker) ->
        Z.of_nat (S (size (kv w))) <= GoInt.max_int ->
        fst (fst (CleanupStaleWorkers r timeout
                    (with_kv w (<[key := en]> (kv w)))))
        = count + 1).
Proof.
  intros Hscan Hget Hdel Hsize. cbv zeta.
  pose proof (sweep_count r timeout w Hscan Hsize) as Hcount.
  destruct (CleanupStaleWorkers_run r timeout w)
    as [[c [e0 [Hc _]]] | [l [Hrun _]]];
    [rewrite Hscan in Hc; discriminate |].
  rewrite Hrun. cbn [fst snd kv with_logs with_kv].
  fold (sweep_list timeout w).
  assert (forall key, expired timeout w key ->
                      foldr delete (kv w) (sweep_list timeout w) !! key = None)
    as Hgone.
  { intros key Hex. rewrite lookup_foldr_delete.
    destruct (decide (key ∈ sweep_list timeout w)) as [_ | Hn];
      [reflexivity |].
    exfalso. apply Hn. now apply sweep_list_expired. }
  assert (forall key, ~ expired timeout w key ->
                      foldr delete (kv w) (sweep_list timeout w) !! key
                      = kv w !! key) as Hkept.
  { intros key Hex. rewrite lookup_foldr_delete.
    destruct (decide (key ∈ sweep_list timeout w)) as [Hin | _];
      [| reflexivity].
    exfalso. apply Hex. now apply sweep_list_expired. }
  split; [reflexivity |]. split; [exact Hgone |]. split; [exact Hkept |].
  split; [| split].
  - exists (sweep_list timeout w).
    split; [apply sweep_list_NoDup |].
    split; [intros key; now apply sweep_list_expired |].
    now apply sweep_list_length.
  - intros key data worker Hg Hl Hd Ht.
    destruct (age_around_timeout (clock w) timeout Ht) as [Hin Hout].
    split; intros Hhb.
    + apply Hkept. intros [data' [worker' [_ [Hl' [Hd' Hage]]]]].
      rewrite Hl in Hl'. injection Hl' as <-.
      rewrite Hd in Hd'. injection Hd' as <-.
      rewrite Hhb in Hage. lia.
    + apply Hgone. exists data, worker.
      repeat (split; [assumption |]). rewrite Hhb. exact Hout.
  - intros key en worker Hfresh Hg Hlive Hd Hage Hsize'.
    rewrite sweep_count.
    + cbn [fst].
      rewrite (sweep_list_insert timeout w key en worker Hget Hdel Hfresh Hg
                 Hlive Hd Hage).
      rewrite sweep_list_length by exact Hsize. lia.
    + exact Hscan.
    + cbn [kv with_kv]. rewrite map_size_insert_None by exact Hfresh.
      exact Hsize'.
Qed.

Example CleanupStaleWorkers_sweeps_Y :
  fst (CleanupStaleWorkers NewRegistry (30 * time.Second) sweepWorld) = (1, None).
Proof. vm_compute. reflexivity. Qed.

Lemma CleanupStaleWorkers_threshold_witness :
  let run := CleanupStaleWorkers NewRegistry (30 * time.Second) sweepWorld in
  Z.of_nat (size (kv sweepWorld)) <= GoInt.max_int
  /\ snd (fst run) = None
  /\ kv (snd run) !! getWorkerKey "X" = kv sweepWorld !! getWorkerKey "X"
  /\ kv (snd run) !! getWorkerKey "Y" = None.
Proof.
  cbv zeta.
  assert (Z.of_nat (size (kv sweepWorld)) <= GoInt.max_int) as Hsize
    by (vm_compute; discriminate).
  split; [exact Hsize |].
  destruct (@CleanupStaleWorkers_threshold Concrete.ports NewRegistry
              (30 * time.Second) sweepWorld
              (fun _ => eq_refl) (fun _ => eq_refl) (fun _ => eq_refl) Hsize)
    as [Herr [_ [_ [_ [Hedge _]]]]].
  split; [exact Herr |].
  split.
  - apply (Hedge (getWorkerKey "X")
                 "X;executor;idle;50000000000;71000000000;;0"%string exampleX);
      [reflexivity | vm_compute; reflexivity | vm_compute; reflexivity
      | vm_compute; split; [discriminate | reflexivity] | reflexivity].
  - apply (Hedge (getWorkerKey "Y")
                 "Y;executor;idle;50000000000;69000000000;;0"%string exampleY);
      [reflexivity | vm_compute; reflexivity | vm_compute; reflexivity
      | vm_compute; split; [discriminate | reflexivity] | reflexivity].
Defined.

(** * Further properties of the registry *)

(** ** Keys *)

Lemma append_inj_l (p a b : string) :
  (p ++ a)%string = (p ++ b)%string -> a = b.
Proof.
  induction p as [| c p IH]; intros Heq; [exact Heq |].
  rewrite !append_cons in Heq. injection Heq as Heq. now apply IH.
Qed.

Lemma getWorkerKey_inj (a b : string) :
  getWorkerKey a = getWorkerKey b -> a = b.
Proof. apply append_inj_l. Qed.

Lemma glob_getWorkerKey (workerID : string) :
  glob (workerKeyPrefix ++ "*") (getWorkerKey workerID) = true.
Proof. reflexivity. Qed.

(** A literal pattern character must be the key's next character. *)
Lemma glob_literal (c : ascii) (p key : string) :
  (Ascii.eqb c "*" && String.eqb p "")%bool = false ->
  glob (String c p) key = true ->
  exists k, key = String c k /\ glob p k = true.
Proof.
  intros Hlit. cbn [glob]. rewrite Hlit.
  destruct key as [| d k]; [discriminate |].
  intros Hm. apply andb_true_iff in Hm as [Hc Hk].
  apply Ascii.eqb_eq in Hc as ->. now exists k.
Qed.

(** X1: the key function is injective, so two workers never share a record,
    and the keys the scan pattern [dago:workers:*] selects are exactly the
    keys of worker ids, so no registered worker is hidden from a scan and
    no foreign key is taken for a worker. *)
Theorem getWorkerKey_scan_pattern (key : string) :
  (forall a b, getWorkerKey a = getWorkerKey b -> a = b)
  /\ (glob (workerKeyPrefix ++ "*") key = true
      <-> exists workerID, key = getWorkerKey workerID).
Proof.
  split; [exact getWorkerKey_inj |]. split.
  - unfold workerKeyPrefix. intros Hm.
    repeat (apply glob_literal in Hm as [? [-> Hm]]; [| reflexivity]).
    eexists. reflexivity.
  - intros [workerID ->]. apply glob_getWorkerKey.
Qed.

(** ** Unregister *)

Lemma Unregister_run `{Ports} (r : Registry) (workerID : string) (w : World) :
  Unregister r workerID w =
  match del_fault w (getWorkerKey workerID) with
  | Some e => (Some (wrapError "failed to unregister worker: " e), w)
  | None =>
      (None,
       with_logs (with_kv w (delete (getWorkerKey workerID) (kv w)))
                 (logs w ++ [unregisteredInfo workerID]))
  end.
Proof.
  unfold Unregister, bind, client_Del, logger_Info, logger_log, ret.
  now destruct (del_fault w (getWorkerKey workerID)).
Qed.

(** X2: when the store takes the delete, Unregister succeeds whether or not
    the id was registered, the id's key is gone and every other key is what
    it was; a read of the id then reports not found, and unregistering it
    once more succeeds again and changes nothing in the key space. *)
Theorem Unregister_removes `{Ports} (r : Registry) (workerID : string)
    (w : World) :
  del_fault w (getWorkerKey workerID) = None ->
  let w1 := snd (Unregister r workerID w) in
  fst (Unregister r workerID w) = None
  /\ kv w1 = delete (getWorkerKey workerID) (kv w)
  /\ (get_fault w (getWorkerKey workerID) = None ->
      fst (GetWorker r workerID w1) = Err (NotFoundError workerID))
  /\ fst (Unregister r workerID w1) = None
  /\ kv (snd (Unregister r workerID w1)) = kv w1.
Proof.
  intros Hdel. cbv zeta. rewrite !Unregister_run, Hdel. cbn [fst snd].
  cbn [del_fault kv with_logs with_kv]. rewrite Hdel. cbn [fst snd kv with_logs with_kv].
  split; [reflexivity |]. split; [reflexivity |]. split.
  - intros Hget. rewrite GetWorker_read by exact Hget.
    unfold live. cbn [kv with_logs with_kv]. now rewrite lookup_delete_eq.
  - split; [reflexivity |]. apply delete_delete_eq.
Qed.

Lemma Unregister_removes_witness :
  let w := exampleWorld in
  let w1 := snd (Unregister NewRegistry "A" w) in
  fst (GetWorker NewRegistry "A" w) = Ok exampleA
  /\ fst (Unregister NewRegistry "A" w) = None
  /\ fst (GetWorker NewRegistry "A" w1) = Err (NotFoundError "A")
  /\ fst (Unregister NewRegistry "A" w1) = None.
Proof.
  cbv zeta. split; [vm_compute; reflexivity |].
  destruct (@Unregister_removes Concrete.ports NewRegistry "A" exampleWorld)
    as [Hfirst [_ [Hgone [Hsecond _]]]]; [reflexivity |].
  split; [exact Hfirst |]. split; [apply Hgone; reflexivity | exact Hsecond].
Defined.

(** X3: Unregister fails only when the store refuses the delete; the error
    is the store's, wrapped, and then nothing at all has changed, the log
    included. *)
Theorem Unregister_failure `{Ports} (r : Registry) (workerID : string)
    (w : World) :
  (fst (Unregister r workerID w) = None
   <-> del_fault w (getWorkerKey workerID) = None)
  /\ (forall e,
        fst (Unregister r workerID w) = Some e ->
        snd (Unregister r workerID w) = w
        /\ exists e0,
             del_fault w (getWorkerKey workerID) = Some e0
             /\ e = wrapError "failed to unregister worker: " e0).
Proof.
  rewrite Unregister_run.
  destruct (del_fault w (getWorkerKey workerID)) as [e0 |]; cbn [fst snd].
  - split; [split; discriminate |].
    intros e He. injection He as <-. split; [reflexivity |]. now exists e0.
  - split; [split; reflexivity |]. discriminate.
Qed.

(** ** Register *)

(** X4: the last writer wins.  Registering a second record under an id
    already registered leaves the store as if only the second had been
    registered: nothing of the first record survives, and the entry expires
    one ttl (a positive whole number of milliseconds) after the second
    registration. *)
Theorem Register_overwrites `{Ports} (r : Registry) (first second : WorkerInfo)
    (w : World) (t : time.Time) :
  whole_milliseconds (ttl r) ->
  ID first = ID second ->
  fst (Register r first w) = None ->
  let w1 := with_clock (snd (Register r first w)) t in
  fst (Register r second w1) = None ->
  exists data,
    json_Marshal second = Ok data
    /\ kv (snd (Register r second w1))
       = <[getWorkerKey (ID second) := mkEntry data (t + ttl r)]> (kv w).
Proof.
  intros _ Hid Hfirst. cbv zeta. rewrite !Register_run in *. rewrite Hid in *.
  destruct (json_Marshal first) as [data1 | e1]; [| discriminate].
  destruct (set_fault w (getWorkerKey (ID second))) as [e |] eqn:Hset;
    [discriminate |].
  cbn [fst snd set_fault kv clock with_clock with_logs with_kv]. rewrite Hset.
  destruct (json_Marshal second) as [data2 | e2]; [| discriminate].
  intros _. exists data2. split; [reflexivity |].
  cbn [fst snd kv with_logs with_kv]. apply insert_insert_eq.
Qed.

Lemma Register_overwrites_witness :
  let first := exampleC in
  let second :=
    mkWorkerInfo "C" "router" "idle" (101 * time.Second) (101 * time.Second)
                 "" 0 in
  let w := Concrete.world (100 * time.Second) ∅ in
  let w1 := with_clock (snd (Register NewRegistry first w)) (101 * time.Second) in
  whole_milliseconds (ttl NewRegistry)
  /\ ID first = ID second
  /\ kv (snd (Register NewRegistry second w1))
     = <[getWorkerKey "C" :=
           mkEntry "C;router;idle;101000000000;101000000000;;0"
                   (131 * time.Second)]> ∅.
Proof.
  cbv zeta. split; [split; reflexivity |]. split; [reflexivity |].
  destruct (@Register_overwrites Concrete.ports NewRegistry exampleC
              (mkWorkerInfo "C" "router" "idle" (101 * time.Second)
                 (101 * time.Second) "" 0)
              (Concrete.world (100 * time.Second) ∅) (101 * time.Second))
    as [data [Hdata Hkv]];
    [split; reflexivity | reflexivity | vm_compute; reflexivity
    | vm_compute; reflexivity |].
  vm_compute in Hdata. injection Hdata as <-. exact Hkv.
Defined.

(** ** GetWorker *)

(** X5: GetWorker only reads, and its errors tell the three failures
    apart.  It reports not found exactly for a key the store does not hold
    or has expired (the client's [redis.Nil]); any other failure of the read
    comes back wrapped as a get failure, and a payload that does not decode
    comes back wrapped as an unmarshal failure. *)
Theorem GetWorker_errors `{Ports} (r : Registry) (workerID : string)
    (w : World) :
  let key := getWorkerKey workerID in
  snd (GetWorker r workerID w) = w
  /\ (get_fault w key = None -> live w key = None ->
      fst (GetWorker r workerID w) = Err (NotFoundError workerID))
  /\ (forall e,
        fst (GetWorker r workerID w) = Err e ->
        (e = NotFoundError workerID
         /\ (get_fault w key = Some redis_Nil
             \/ (get_fault w key = None /\ live w key = None)))
        \/ (exists e0,
              get_fault w key = Some e0
              /\ e0 <> redis_Nil
              /\ e = wrapError "failed to get worker: " e0)
        \/ (exists data e0,
              get_fault w key = None
              /\ live w key = Some data
              /\ json_Unmarshal data = Err e0
              /\ e = wrapError "failed to unmarshal worker info: " e0)).
Proof.
  cbv zeta. split; [apply GetWorker_world |]. split.
  - intros Hf Hl. now rewrite (GetWorker_read r workerID w Hf), Hl.
  - intros e.
    unfold GetWorker, bind, client_Get, time_Since, time_Now, ret.
    destruct (get_fault w (getWorkerKey workerID)) as [e0 |]; cbn.
    + destruct e0 as [| msg | prefix cause]; cbn; intros He;
        injection He as <-.
      * left. split; [reflexivity | now left].
      * right. left. eexists. now repeat split.
      * right. left. eexists. now repeat split.
    + destruct (live w (getWorkerKey workerID)) as [data |]; cbn.
      * destruct (json_Unmarshal data) as [stored | e0] eqn:Hd; cbn.
        -- destruct (ttl r <? time.Sub (clock w) (LastHeartbeat stored));
             discriminate.
        -- intros He. injection He as <-. right. right.
           exists data, e0. now repeat split.
      * intros He. injection He as <-. left.
        split; [reflexivity | right; now split].
Qed.

(** ** Heartbeat *)

Lemma with_logs_nil (w : World) : with_logs w (logs w ++ []) = w.
Proof. rewrite app_nil_r. now destruct w. Qed.

Lemma with_logs_with_logs (w : World) (l1 l2 : list LogEntry) :
  with_logs (with_logs w (logs w ++ l1)) (logs (with_logs w (logs w ++ l1)) ++ l2)
  = with_logs w (logs w ++ l1 ++ l2).
Proof. unfold with_logs. cbn. now rewrite app_assoc. Qed.

(** Heartbeat, run: the record it writes, the warnings it logs and the three
    ways it can end. *)
Lemma Heartbeat_exact `{Ports} r workerID status currentTask w :
  Heartbeat r workerID status currentTask w =
  let key := getWorkerKey workerID in
  let written := heartbeatWritten r workerID status currentTask w in
  let w1 :=
    with_logs w (logs w ++ heartbeatLog r workerID status currentTask w) in
  match json_Marshal written with
  | Err e' => (Some (wrapError "failed to marshal worker info: " e'), w1)
  | Ok data =>
      match set_fault w key with
      | Some e' => (Some (wrapError "failed to update heartbeat: " e'), w1)
      | None =>
          (None, with_kv w1 (<[key := mkEntry data (clock w + ttl r)]> (kv w)))
      end
  end.
Proof.
  cbv zeta. unfold heartbeatWritten, heartbeatLog, heartbeatBase, withPending.
  destruct (fst (GetWorker r workerID w)) as [got | e] eqn:Hget;
    cbv beta iota; unfold Heartbeat, bind; rewrite GetWorker_run, Hget.
  - cbn [time_Now ret].
    change (set_CurrentTask (set_LastHeartbeat (set_Status got status) (clock w))
              currentTask)
      with (refreshed got status currentTask (clock w)).
    rewrite getPendingTasksForWorker_run.
    destruct (fst (getPendingTasksForWorker workerID
                     (Type_ (refreshed got status currentTask (clock w))) w))
      as [pendingTasks | qe].
    + cbn [app]. rewrite with_logs_nil. cbn [ret].
      destruct (json_Marshal _) as [data | e']; [| reflexivity].
      unfold client_Set.
      destruct (set_fault w (getWorkerKey workerID)) as [e' |]; reflexivity.
    + cbn [logger_Warn logger_log ret app].
      destruct (json_Marshal _) as [data | e']; [| reflexivity].
      unfold client_Set. cbn [set_fault with_logs kv clock].
      destruct (set_fault w (getWorkerKey workerID)) as [e' |]; reflexivity.
  - cbn [logger_Warn logger_log time_Now ret with_logs clock].
    rewrite getPendingTasksForWorker_run, getPendingTasksForWorker_logs.
    fold (autoRegisterWarn workerID).
    destruct (fst (getPendingTasksForWorker workerID
                     (Type_ (mkWorkerInfo workerID (inferWorkerType workerID)
                               status (clock w) (clock w) currentTask 0)) w))
      as [pendingTasks | qe].
    + cbn [ret app].
      destruct (json_Marshal _) as [data | e']; [| reflexivity].
      unfold client_Set. cbn [set_fault with_logs kv clock].
      destruct (set_fault w (getWorkerKey workerID)) as [e' |]; reflexivity.
    + cbn [logger_Warn logger_log ret app]. fold (pendingWarn workerID qe).
      rewrite (with_logs_with_logs w [autoRegisterWarn workerID]
                 [pendingWarn workerID qe]).
      cbn [app].
      destruct (json_Marshal _) as [data | e']; [| reflexivity].
      unfold client_Set. cbn [set_fault with_logs kv clock].
      destruct (set_fault w (getWorkerKey workerID)) as [e' |]; reflexivity.
Qed.

Lemma GetWorker_Ok_inv `{Ports} r workerID w got :
  fst (GetWorker r workerID w) = Ok got ->
  get_fault w (getWorkerKey workerID) = None
  /\ exists data stored,
       live w (getWorkerKey workerID) = Some data
       /\ json_Unmarshal data = Ok stored
       /\ got = recomputed r (clock w) stored.
Proof.
  unfold GetWorker, bind, client_Get, time_Since, time_Now, ret, recomputed.
  destruct (get_fault w (getWorkerKey workerID)) as [e |]; cbn.
  - destruct (is_redis_Nil e); discriminate.
  - destruct (live w (getWorkerKey workerID)) as [data |]; cbn; [| discriminate].
    destruct (json_Unmarshal data) as [stored | e] eqn:Hd; cbn; [| discriminate].
    intros Hgot. split; [reflexivity |]. exists data, stored.
    split; [reflexivity |]. split; [exact Hd |].
    destruct (ttl r <? time.Sub (clock w) (LastHeartbeat stored));
      cbn in Hgot; now injection Hgot.
Qed.

(** GetWorker looks at the world only through the clock and its own key. *)
Lemma GetWorker_ext `{Ports} r workerID w w' :
  clock w' = clock w ->
  get_fault w' (getWorkerKey workerID) = get_fault w (getWorkerKey workerID) ->
  kv w' !! getWorkerKey workerID = kv w !! getWorkerKey workerID ->
  fst (GetWorker r workerID w') = fst (GetWorker r workerID w).
Proof.
  intros Hc Hf Hk.
  unfold GetWorker, bind, client_Get, live, time_Since, time_Now, ret.
  rewrite Hc, Hf, Hk.
  destruct (get_fault w (getWorkerKey workerID)) as [e |]; cbn.
  - now destruct (is_redis_Nil e).
  - destruct (kv w !! getWorkerKey workerID) as [en |]; cbn; [| reflexivity].
    destruct (clock w <? expires en); cbn; [| reflexivity].
    destruct (json_Unmarshal (value en)) as [stored | e]; cbn; [| reflexivity].
    rewrite Hc.
    now destruct (ttl r <? time.Sub (clock w) (LastHeartbeat stored)).
Qed.

Lemma refreshed_recomputed `{Ports} r now stored status currentTask t :
  refreshed (recomputed r now stored) status currentTask t
  = refreshed stored status currentTask t.
Proof.
  unfold recomputed.
  now destruct (ttl r <? time.Sub now (LastHeartbeat stored)).
Qed.

(** The record a heartbeat writes carries the reported status and task and
    the instant of the heartbeat, on either branch. *)
Lemma heartbeatWritten_fields `{Ports} r workerID status currentTask w :
  Status (heartbeatWritten r workerID status currentTask w) = status
  /\ CurrentTask (heartbeatWritten r workerID status currentTask w) = currentTask
  /\ LastHeartbeat (heartbeatWritten r workerID status currentTask w) = clock w.
Proof.
  unfold heartbeatWritten, withPending, heartbeatBase.
  destruct (fst (GetWorker r workerID w));
    destruct (fst (getPendingTasksForWorker _ _ _)); now repeat split.
Qed.

(** What a heartbeat writes and logs when the stored record reads and
    decodes. *)
Lemma heartbeatWritten_stored `{Ports} r workerID status currentTask w data0
    stored :
  get_fault w (getWorkerKey workerID) = None ->
  live w (getWorkerKey workerID) = Some data0 ->
  json_Unmarshal data0 = Ok stored ->
  let queue := fst (getPendingTasksForWorker workerID (Type_ stored) w) in
  heartbeatWritten r workerID status currentTask w
  = mkWorkerInfo (ID stored) (Type_ stored) status (RegisteredAt stored)
      (clock w) currentTask
      match queue with
      | Ok pendingTasks => pendingTasks
      | Err _ => PendingTasks stored
      end
  /\ heartbeatLog r workerID status currentTask w
     = match queue with
       | Ok _ => []
       | Err err => [pendingWarn workerID err]
       end.
Proof.
  intros Hf Hl Hd. cbv zeta.
  assert (fst (GetWorker r workerID w) = Ok (recomputed r (clock w) stored))
    as Hget.
  { rewrite (GetWorker_read r workerID w Hf), Hl, Hd. unfold recomputed.
    now destruct (ttl r <? time.Sub (clock w) (LastHeartbeat stored)). }
  unfold heartbeatWritten, heartbeatLog, heartbeatBase, withPending.
  rewrite Hget, refreshed_recomputed. cbn [Type_ refreshed app].
  now destruct (fst (getPendingTasksForWorker workerID (Type_ stored) w)).
Qed.

(** X6: a heartbeat for a record that reads and decodes keeps the record's
    id, type and registration instant, sets status and current task to the
    arguments and the last heartbeat to now, and takes the pending-task
    count from the queue, or keeps the stored count when the queue can not
    be asked; the entry's life is renewed to one ttl (a positive whole
    number of milliseconds) from now.  Nothing is logged but the queue's
    failure, if any. *)
Theorem Heartbeat_refreshes_existing `{Ports} (r : Registry) (workerID : string)
    (status : WorkerStatus) (currentTask : string) (w : World)
    (data0 : string) (stored : WorkerInfo) :
  whole_milliseconds (ttl r) ->
  get_fault w (getWorkerKey workerID) = None ->
  live w (getWorkerKey workerID) = Some data0 ->
  json_Unmarshal data0 = Ok stored ->
  let key := getWorkerKey workerID in
  let queue := fst (getPendingTasksForWorker workerID (Type_ stored) w) in
  let written :=
    mkWorkerInfo (ID stored) (Type_ stored) status (RegisteredAt stored)
      (clock w) currentTask
      match queue with
      | Ok pendingTasks => pendingTasks
      | Err _ => PendingTasks stored
      end in
  let res := fst (Heartbeat r workerID status currentTask w) in
  let w' := snd (Heartbeat r workerID status currentTask w) in
  (forall data,
      json_Marshal written = Ok data -> set_fault w key = None ->
      res = None /\ kv w' !! key = Some (mkEntry data (clock w + ttl r)))
  /\ (res = None ->
      exists data, json_Marshal written = Ok data
        /\ kv w' !! key = Some (mkEntry data (clock w + ttl r)))
  /\ logs w'
     = (logs w ++ match queue with
                  | Ok _ => []
                  | Err err => [pendingWarn workerID err]
                  end)%list.
Proof.
  intros _ Hf Hl Hd. cbv zeta.
  destruct (heartbeatWritten_stored r workerID status currentTask w data0
              stored Hf Hl Hd) as [Hwritten Hlog].
  cbv zeta in Hwritten, Hlog.
  rewrite Heartbeat_exact. cbv zeta. rewrite Hwritten, Hlog.
  destruct (json_Marshal _) as [data | e'].
  - destruct (set_fault w (getWorkerKey workerID)) as [e' |]; cbn [fst snd].
    + split; [intros data' _ Hs; discriminate |].
      split; [discriminate | reflexivity].
    + split; [| split; [| reflexivity]].
      * intros data' Hm _. injection Hm as <-.
        split; [reflexivity | apply lookup_insert_eq].
      * intros _. exists data. split; [reflexivity | apply lookup_insert_eq].
  - cbn [fst snd]. split; [intros data' Hm; discriminate |].
    split; [discriminate | reflexivity].
Qed.

Lemma Heartbeat_refreshes_existing_witness :
  let run := Heartbeat NewRegistry "A" "busy" "t9" queueWorld in
  whole_milliseconds (ttl NewRegistry)
  /\ live queueWorld (getWorkerKey "A")
     = Some "A;executor;idle;90000000000;95000000000;;2"%string
  /\ fst run = None
  /\ kv (snd run) !! getWorkerKey "A"
     = Some (mkEntry "A;executor;busy;90000000000;100000000000;t9;4"
                     (130 * time.Second)).
Proof.
  cbv zeta. split; [split; reflexivity |]. split; [vm_compute; reflexivity |].
  destruct (@Heartbeat_refreshes_existing Concrete.ports NewRegistry "A"
              "busy" "t9" queueWorld
              "A;executor;idle;90000000000;95000000000;;2" exampleA)
    as [Hwrite _];
    [split; reflexivity | reflexivity | vm_compute; reflexivity
    | vm_compute; reflexivity |].
  apply Hwrite; [vm_compute; reflexivity | reflexivity].
Defined.

(** X7: the only errors Heartbeat returns are the serialization error and
    the error of the store write, each wrapped; it never returns a read
    error, a not-found error or a queue error.  It succeeds exactly when the
    record it has built serializes and the store takes the write, and when
    it fails the key space is what it was. *)
Theorem Heartbeat_failure `{Ports} (r : Registry) (workerID : string)
    (status : WorkerStatus) (currentTask : string) (w : World) :
  let key := getWorkerKey workerID in
  let written := heartbeatWritten r workerID status currentTask w in
  let res := fst (Heartbeat r workerID status currentTask w) in
  let w' := snd (Heartbeat r workerID status currentTask w) in
  (res = None <->
   (exists data, json_Marshal written = Ok data) /\ set_fault w key = None)
  /\ (forall e,
        res = Some e ->
        kv w' = kv w
        /\ ((exists e', json_Marshal written = Err e'
                        /\ e = wrapError "failed to marshal worker info: " e')
            \/ (exists e', set_fault w key = Some e'
                           /\ e = wrapError "failed to update heartbeat: " e'))).
Proof.
  cbv zeta. rewrite Heartbeat_exact. cbv zeta.
  destruct (json_Marshal _) as [data | e'].
  - destruct (set_fault w (getWorkerKey workerID)) as [e' |]; cbn [fst snd].
    + split; [split; [discriminate | intros [_ Hs]; discriminate] |].
      intros e He. injection He as <-. split; [reflexivity |].
      right. now exists e'.
    + split; [| discriminate].
      split; [intros _; split; [now exists data | reflexivity] | reflexivity].
  - cbn [fst snd].
    split; [split; [discriminate | intros [[data Hd] _]; discriminate] |].
    intros e He. injection He as <-. split; [reflexivity |].
    left. now exists e'.
Qed.

Lemma Sub_within (t now ttl : Z) :
  now <= t < now + ttl -> (ttl <? time.Sub t now) = false.
Proof.
  intros Ht. unfold time.Sub, time.maxDuration, time.minDuration.
  destruct (Z.ltb_spec (2 ^ 63 - 1) (t - now));
    [| destruct (Z.ltb_spec (t - now) (- 2 ^ 63))];
    apply Z.ltb_ge; lia.
Qed.

(** X8: a worker that has just sent a successful heartbeat reads back, at
    any instant before one ttl has passed, as the record the heartbeat
    wrote: with the status and task it reported and the heartbeat's instant,
    never as Unhealthy by override.  (The ttl is a positive whole number of
    milliseconds, and the record is assumed to survive the codec.) *)
Theorem Heartbeat_then_GetWorker `{Ports} (r : Registry) (workerID : string)
    (status : WorkerStatus) (currentTask : string) (w : World)
    (data : string) (t : time.Time) :
  whole_milliseconds (ttl r) ->
  let written := heartbeatWritten r workerID status currentTask w in
  json_Marshal written = Ok data ->
  json_Unmarshal data = Ok written ->
  fst (Heartbeat r workerID status currentTask w) = None ->
  get_fault w (getWorkerKey workerID) = None ->
  clock w <= t < clock w + ttl r ->
  let w1 := with_clock (snd (Heartbeat r workerID status currentTask w)) t in
  fst (GetWorker r workerID w1) = Ok written
  /\ Status written = status
  /\ CurrentTask written = currentTask
  /\ LastHeartbeat written = clock w.
Proof.
  intros _. cbv zeta. intros Hm Hu Hres Hf Ht.
  destruct (heartbeatWritten_fields r workerID status currentTask w)
    as [Hs [Hc Hh]].
  split; [| now repeat split].
  rewrite Heartbeat_exact in Hres |- *. cbv zeta in Hres |- *.
  rewrite Hm in Hres |- *.
  destruct (set_fault w (getWorkerKey workerID)); [discriminate |].
  cbn [snd]. rewrite GetWorker_read by exact Hf.
  unfold live. cbn [with_clock with_logs with_kv kv clock].
  rewrite lookup_insert_eq. cbn [expires value].
  destruct (Z.ltb_spec t (clock w + ttl r)) as [_ | Hge]; [| lia].
  rewrite Hu, Hh. now rewrite Sub_within.
Qed.

Lemma Heartbeat_then_GetWorker_witness :
  let run := Heartbeat NewRegistry "A" "busy" "t9" queueWorld in
  let later := with_clock (snd run) (129 * time.Second) in
  whole_milliseconds (ttl NewRegistry)
  /\ fst run = None
  /\ fst (GetWorker NewRegistry "A" later)
     = Ok (mkWorkerInfo "A" "executor" "busy" (90 * time.Second)
             (100 * time.Second) "t9" 4).
Proof.
  cbv zeta.
  assert (fst (Heartbeat NewRegistry "A" "busy" "t9" queueWorld) = None)
    as Hrun by (vm_compute; reflexivity).
  split; [split; reflexivity |]. split; [exact Hrun |].
  destruct (@Heartbeat_then_GetWorker Concrete.ports NewRegistry "A" "busy"
              "t9" queueWorld
              "A;executor;busy;90000000000;100000000000;t9;4"
              (129 * time.Second))
    as [Hread _];
    [split; reflexivity
    | vm_compute; reflexivity | vm_compute; reflexivity | exact Hrun
    | reflexivity | vm_compute; split; [discriminate | reflexivity] |].
  rewrite Hread. vm_compute. reflexivity.
Defined.

(** X9: a registry write for one worker is invisible to the readers of
    another: after Register, Heartbeat or Unregister for [workerID], whether
    it succeeded or not, GetWorker answers for any other id what it answered
    before. *)
Theorem writes_are_isolated `{Ports} (r : Registry) (workerID other : string)
    (w : World) :
  workerID <> other ->
  (forall worker,
      ID worker = workerID ->
      fst (GetWorker r other (snd (Register r worker w)))
      = fst (GetWorker r other w))
  /\ (forall status currentTask,
        fst (GetWorker r other (snd (Heartbeat r workerID status currentTask w)))
        = fst (GetWorker r other w))
  /\ fst (GetWorker r other (snd (Unregister r workerID w)))
     = fst (GetWorker r other w).
Proof.
  intros Hne.
  assert (getWorkerKey workerID <> getWorkerKey other) as Hkey
    by (intros Heq; now apply Hne, getWorkerKey_inj).
  split; [| split].
  - intros worker <-. rewrite Register_run.
    destruct (json_Marshal worker); [| reflexivity].
    destruct (set_fault w (getWorkerKey (ID worker))); [reflexivity |].
    apply GetWorker_ext; [reflexivity | reflexivity |].
    cbn [snd kv with_logs with_kv]. now apply lookup_insert_ne.
  - intros status currentTask. rewrite Heartbeat_exact. cbv zeta.
    destruct (json_Marshal _);
      [destruct (set_fault w (getWorkerKey workerID)) |];
      apply GetWorker_ext; try reflexivity.
    cbn [snd kv with_logs with_kv]. now apply lookup_insert_ne.
  - rewrite Unregister_run.
    destruct (del_fault w (getWorkerKey workerID)); [reflexivity |].
    apply GetWorker_ext; [reflexivity | reflexivity |].
    cbn [snd kv with_logs with_kv]. now apply lookup_delete_ne.
Qed.

Lemma writes_are_isolated_witness :
  fst (GetWorker NewRegistry "B"
         (snd (Heartbeat NewRegistry "A" "busy" "t9" queueWorld)))
  = fst (GetWorker NewRegistry "B" queueWorld)
  /\ fst (GetWorker NewRegistry "B" (snd (Unregister NewRegistry "A" queueWorld)))
     = fst (GetWorker NewRegistry "B" queueWorld).
Proof.
  destruct (@writes_are_isolated Concrete.ports NewRegistry "A" "B" queueWorld)
    as [_ [Hbeat Hgone]]; [discriminate |].
  split; [apply Hbeat | exact Hgone].
Defined.

(** X10: a record does not outlive its last write by more than one ttl and
    the millisecond the store's clock may add.  With a ttl of a positive
    whole number of milliseconds, after a successful Register or Heartbeat
    at instant [now], a read at any instant from one millisecond past
    [now + ttl] on, with no write in between, reports the worker as not
    found. *)
Theorem record_expires_after_ttl `{Ports} (r : Registry) (workerID : string)
    (w : World) (t : time.Time) :
  whole_milliseconds (ttl r) ->
  get_fault w (getWorkerKey workerID) = None ->
  clock w + ttl r + time.Millisecond <= t ->
  (forall worker,
      ID worker = workerID ->
      fst (Register r worker w) = None ->
      fst (GetWorker r workerID (with_clock (snd (Register r worker w)) t))
      = Err (NotFoundError workerID))
  /\ (forall status currentTask,
        fst (Heartbeat r workerID status currentTask w) = None ->
        fst (GetWorker r workerID
               (with_clock (snd (Heartbeat r workerID status currentTask w)) t))
        = Err (NotFoundError workerID)).
Proof.
  intros _ Hf Ht. unfold time.Millisecond in Ht. split.
  - intros worker <- Hres. rewrite Register_run in Hres |- *.
    destruct (json_Marshal worker); [| discriminate].
    destruct (set_fault w (getWorkerKey (ID worker))); [discriminate |].
    cbn [snd]. rewrite GetWorker_read by exact Hf.
    unfold live. cbn [with_clock with_logs with_kv kv clock].
    rewrite lookup_insert_eq. cbn [expires].
    now destruct (Z.ltb_spec t (clock w + ttl r)) as [Hlt | _]; [lia |].
  - intros status currentTask Hres.
    rewrite Heartbeat_exact in Hres |- *. cbv zeta in Hres |- *.
    destruct (json_Marshal _); [| discriminate].
    destruct (set_fault w (getWorkerKey workerID)); [discriminate |].
    cbn [snd]. rewrite GetWorker_read by exact Hf.
    unfold live. cbn [with_clock with_logs with_kv kv clock].
    rewrite lookup_insert_eq. cbn [expires].
    now destruct (Z.ltb_spec t (clock w + ttl r)) as [Hlt | _]; [lia |].
Qed.

Lemma record_expires_after_ttl_witness :
  let run := Heartbeat NewRegistry "A" "busy" "t9" queueWorld in
  let t := 130 * time.Second + time.Millisecond in
  whole_milliseconds (ttl NewRegistry)
  /\ clock queueWorld + ttl NewRegistry + time.Millisecond <= t
  /\ fst run = None
  /\ fst (GetWorker NewRegistry "A" (with_clock (snd run) t))
     = Err (NotFoundError "A").
Proof.
  cbv zeta.
  assert (fst (Heartbeat NewRegistry "A" "busy" "t9" queueWorld) = None)
    as Hrun by (vm_compute; reflexivity).
  split; [split; reflexivity |]. split; [vm_compute; discriminate |].
  split; [exact Hrun |].
  destruct (@record_expires_after_ttl Concrete.ports NewRegistry "A" queueWorld
              (130 * time.Second + time.Millisecond))
    as [_ Hbeat];
    [split; reflexivity | reflexivity | vm_compute; discriminate |].
  now apply Hbeat.
Defined.

(** X11: heartbeats do not touch the registration.  With a ttl of a
    positive whole number of milliseconds, when a heartbeat has succeeded
    and the record it stored decodes, a second heartbeat sent before one ttl
    has passed takes the refresh branch, not the auto-registration: it
    writes a record with the same id, type and registration instant, its own
    status, task and instant, and logs no auto-registration. *)
Theorem Heartbeat_keeps_registration `{Ports} (r : Registry) (workerID : string)
    (status1 status2 : WorkerStatus) (task1 task2 : string) (w : World)
    (en : Entry) (first : WorkerInfo) (t : time.Time) :
  whole_milliseconds (ttl r) ->
  let key := getWorkerKey workerID in
  let w' := snd (Heartbeat r workerID status1 task1 w) in
  fst (Heartbeat r workerID status1 task1 w) = None ->
  kv w' !! key = Some en ->
  json_Unmarshal (value en) = Ok first ->
  get_fault w key = None ->
  clock w <= t < clock w + ttl r ->
  let w1 := with_clock w' t in
  let queue := fst (getPendingTasksForWorker workerID (Type_ first) w1) in
  let second :=
    mkWorkerInfo (ID first) (Type_ first) status2 (RegisteredAt first) t task2
      match queue with
      | Ok pendingTasks => pendingTasks
      | Err _ => PendingTasks first
      end in
  let run := Heartbeat r workerID status2 task2 w1 in
  (forall data,
      json_Marshal second = Ok data ->
      fst run = None /\ kv (snd run) !! key = Some (mkEntry data (t + ttl r)))
  /\ logs (snd run)
     = (logs w1 ++ match queue with
                   | Ok _ => []
                   | Err err => [pendingWarn workerID err]
                   end)%list.
Proof.
  intros _. cbv zeta. intros Hres Hen Hd Hf Ht.
  rewrite Heartbeat_exact in Hres, Hen |- *. cbv zeta in Hres, Hen |- *.
  destruct (json_Marshal (heartbeatWritten r workerID status1 task1 w))
    as [data1 | e1]; [| discriminate].
  destruct (set_fault w (getWorkerKey workerID)) as [e |] eqn:Hset;
    [discriminate |].
  cbn [snd kv with_kv] in Hen. rewrite lookup_insert_eq in Hen.
  injection Hen as <-. cbn [value] in Hd.
  set (w1 := with_clock (snd (None, with_kv _ _)) t).
  assert (get_fault w1 (getWorkerKey workerID) = None) as Hf1 by exact Hf.
  assert (live w1 (getWorkerKey workerID) = Some data1) as Hl1.
  { unfold live, w1. cbn [snd kv clock with_clock with_kv with_logs].
    rewrite lookup_insert_eq. cbn [expires value].
    now destruct (Z.ltb_spec t (clock w + ttl r)) as [_ | Hge]; [| lia]. }
  destruct (heartbeatWritten_stored r workerID status2 task2 w1 data1 first
              Hf1 Hl1 Hd) as [Hwritten Hlog].
  cbv zeta in Hwritten, Hlog.
  rewrite Heartbeat_exact. cbv zeta. rewrite Hwritten, Hlog.
  change (clock w1) with t.
  change (set_fault w1 (getWorkerKey workerID))
    with (set_fault w (getWorkerKey workerID)).
  rewrite Hset.
  destruct (json_Marshal _) as [data | e'].
  - cbn [fst snd]. split; [| reflexivity].
    intros data' Hm. injection Hm as <-.
    split; [reflexivity | apply lookup_insert_eq].
  - cbn [fst snd]. split; [intros data' Hm; discriminate | reflexivity].
Qed.

Lemma Heartbeat_keeps_registration_witness :
  let first := Heartbeat NewRegistry "A" "busy" "t9" queueWorld in
  let w1 := with_clock (snd first) (110 * time.Second) in
  let second := Heartbeat NewRegistry "A" "idle" "" w1 in
  whole_milliseconds (ttl NewRegistry)
  /\ fst first = None
  /\ fst second = None
  /\ kv (snd second) !! getWorkerKey "A"
     = Some (mkEntry "A;executor;idle;90000000000;110000000000;;4"
                     (140 * time.Second)).
Proof.
  cbv zeta.
  assert (fst (Heartbeat NewRegistry "A" "busy" "t9" queueWorld) = None)
    as Hfirst by (vm_compute; reflexivity).
  split; [split; reflexivity |]. split; [exact Hfirst |].
  destruct (@Heartbeat_keeps_registration Concrete.ports NewRegistry "A"
              "busy" "idle" "t9" "" queueWorld
              (mkEntry "A;executor;busy;90000000000;100000000000;t9;4"
                       (130 * time.Second))
              (mkWorkerInfo "A" "executor" "busy" (90 * time.Second)
                 (100 * time.Second) "t9" 4)
              (110 * time.Second))
    as [Hwrite _];
    [split; reflexivity
    | exact Hfirst | vm_compute; reflexivity | vm_compute; reflexivity
    | reflexivity | vm_compute; split; [discriminate | reflexivity] |].
  apply Hwrite. vm_compute. reflexivity.
Defined.

(** ** ListWorkers *)

(** The listing loop, run: the verdicts in scan order, and one warning for
    every key that could not be read or decoded. *)
Lemma ListWorkers_loop_exact `{Ports} r filter keys :
  forall workers w,
    ListWorkers_loop r filter keys workers w
    = ((workers ++ omap (listed r filter w) keys)%list,
       with_logs w (logs w ++ flat_map (listLog w) keys)).
Proof.
  induction keys as [| key rest IH]; intros workers w.
  - cbn. now rewrite app_nil_r, with_logs_nil.
  - cbn [ListWorkers_loop omap list_omap flat_map].
    unfold bind at 1. unfold client_Get.
    unfold listed at 1. unfold listLog at 1.
    destruct (get_fault w key) as [e |].
    + destruct (is_redis_Nil e); [apply IH |].
      unfold bind, logger_Warn, logger_log. rewrite IH.
      f_equal. apply (with_logs_with_logs w [getWarn key e]).
    + destruct (live w key) as [data |]; [| apply IH].
      destruct (json_Unmarshal data) as [stored | e].
      * unfold time_Since, time_Now, ret, recomputed, bind.
        cbv beta iota zeta.
        rewrite Z.leb_antisym, negb_involutive.
        destruct (matchesFilter _ filter _); cbn [negb app].
        -- rewrite IH, <- app_assoc. reflexivity.
        -- apply IH.
      * unfold bind, logger_Warn, logger_log. rewrite IH.
        f_equal. apply (with_logs_with_logs w [unmarshalWarn key e]).
Qed.

Lemma ListWorkers_exact `{Ports} r filter w :
  let keys := scan_view w (workerKeyPrefix ++ "*") in
  (exists c e,
      scan_fault w c = Some e
      /\ ListWorkers r filter w
         = (Err (wrapError "failed to scan worker keys: " e), w))
  \/ ListWorkers r filter w
     = (Ok (omap (listed r filter w) keys),
        with_logs w (logs w ++ flat_map (listLog w) keys)).
Proof.
  cbv zeta. unfold ListWorkers, bind.
  destruct (scanKeys_spec (workerKeyPrefix ++ "*") w) as [res [Hrun [Hres _]]].
  rewrite Hrun.
  destruct Hres as [-> | [c [e [Hc ->]]]].
  - right. now rewrite ListWorkers_loop_exact.
  - left. exists c, e. now split.
Qed.

(** X12: listing is best effort and read-only.  ListWorkers never changes
    the key space; the only error it returns is a failed key scan, wrapped,
    and then it has logged nothing.  Once the scan succeeds the call
    succeeds: a worker key whose payload does not decode, or whose read
    fails, is left out of the result and a warning naming the key and the
    error is logged. *)
Theorem ListWorkers_best_effort `{Ports} (r : Registry) (filter : WorkerFilter)
    (w : World) :
  let pattern := (workerKeyPrefix ++ "*")%string in
  let res := fst (ListWorkers r filter w) in
  let w' := snd (ListWorkers r filter w) in
  kv w' = kv w
  /\ (forall e,
        res = Err e ->
        w' = w
        /\ exists c e0,
             scan_fault w c = Some e0
             /\ e = wrapError "failed to scan worker keys: " e0)
  /\ ((forall c, scan_fault w c = None) ->
      (exists workers, res = Ok workers)
      /\ (forall key data e,
            glob pattern key = true ->
            get_fault w key = None ->
            live w key = Some data ->
            json_Unmarshal data = Err e ->
            In (unmarshalWarn key e) (logs w'))
      /\ (forall key e,
            glob pattern key = true ->
            is_Some (live w key) ->
            get_fault w key = Some e ->
            is_redis_Nil e = false ->
            In (getWarn key e) (logs w'))).
Proof.
  cbv zeta.
  destruct (ListWorkers_exact r filter w) as [[c [e0 [Hc Hrun]]] | Hrun];
    rewrite Hrun; cbn [fst snd kv with_logs].
  - split; [reflexivity |]. split.
    + intros e He. injection He as <-. split; [reflexivity |]. now exists c, e0.
    + intros Hscan. rewrite Hscan in Hc. discriminate.
  - split; [reflexivity |]. split; [discriminate |].
    intros _. split; [eexists; reflexivity |].
    cbn [logs with_logs]. split.
    + intros key data e Hg Hf Hl Hd. apply in_or_app. right.
      apply in_flat_map. exists key. split.
      * apply list_elem_of_In, scan_view_elem. split; [exact Hg | now exists data].
      * unfold listLog. rewrite Hf, Hl, Hd. now left.
    + intros key e Hg Hl Hf Hn. apply in_or_app. right.
      apply in_flat_map. exists key. split.
      * apply list_elem_of_In, scan_view_elem. now split.
      * unfold listLog. rewrite Hf, Hn. now left.
Qed.

Example ListWorkers_skips_garbled :
  fst (ListWorkers NewRegistry noFilter garbledWorld)
  = fst (ListWorkers NewRegistry noFilter exampleWorld)
  /\ logs (snd (ListWorkers NewRegistry noFilter garbledWorld))
     = [unmarshalWarn (getWorkerKey "Z")
          (errorString "json: unexpected end of input")].
Proof. evaluate. Qed.

(** X13: what GetWorker returns for an id, the unfiltered ListWorkers lists:
    the two readers agree on the record and on its recomputed status. *)
Theorem GetWorker_in_ListWorkers `{Ports} (r : Registry) (workerID : string)
    (w : World) (got : WorkerInfo) :
  (forall c, scan_fault w c = None) ->
  fst (GetWorker r workerID w) = Ok got ->
  exists workers,
    fst (ListWorkers r noFilter w) = Ok workers /\ In got workers.
Proof.
  intros Hscan Hget.
  apply GetWorker_Ok_inv in Hget as [Hf [data [stored [Hl [Hd ->]]]]].
  destruct (ListWorkers_exact r noFilter w) as [[c [e0 [Hc _]]] | Hrun];
    [rewrite Hscan in Hc; discriminate |].
  rewrite Hrun. cbn [fst]. eexists. split; [reflexivity |].
  apply list_elem_of_In, list_elem_of_omap. exists (getWorkerKey workerID).
  split.
  - apply scan_view_elem. split; [apply glob_getWorkerKey | now exists data].
  - unfold listed. now rewrite Hf, Hl, Hd.
Qed.

Lemma GetWorker_in_ListWorkers_witness :
  fst (GetWorker NewRegistry "C" exampleWorld)
  = Ok (set_Status exampleC "unhealthy")
  /\ exists workers,
       fst (ListWorkers NewRegistry noFilter exampleWorld) = Ok workers
       /\ In (set_Status exampleC "unhealthy") workers.
Proof.
  assert (fst (GetWorker NewRegistry "C" exampleWorld)
          = Ok (set_Status exampleC "unhealthy")) as Hget
    by (vm_compute; reflexivity).
  split; [exact Hget |].
  apply (@GetWorker_in_ListWorkers Concrete.ports NewRegistry "C" exampleWorld
           (set_Status exampleC "unhealthy") (fun _ => eq_refl) Hget).
Defined.

(** ** GetWorkerStats *)

Lemma count_other_cons `{Ports} worker rest :
  count_other (worker :: rest)
  = (if (negb (String.eqb (Status worker) WorkerStatusIdle)
         && negb (String.eqb (Status worker) WorkerStatusBusy)
         && negb (String.eqb (Status worker) WorkerStatusUnhealthy))%bool
     then 1 else 0) + count_other rest.
Proof.
  unfold count_other. cbn [List.filter].
  destruct (_ && _)%bool; cbn [length]; lia.
Qed.

(** Every worker falls in exactly one of the four classes. *)
Lemma count_status_partition `{Ports} workers :
  WorkerStatusIdle <> WorkerStatusBusy ->
  WorkerStatusIdle <> WorkerStatusUnhealthy ->
  WorkerStatusBusy <> WorkerStatusUnhealthy ->
  count_status WorkerStatusIdle workers
  + count_status WorkerStatusBusy workers
  + count_status WorkerStatusUnhealthy workers
  + count_other workers
  = Z.of_nat (length workers).
Proof.
  intros Hib Hiu Hbu. induction workers as [| worker rest IH].
  - reflexivity.
  - rewrite !count_status_cons, count_other_cons. cbn [length].
    destruct (String.eqb_spec (Status worker) WorkerStatusIdle);
      destruct (String.eqb_spec (Status worker) WorkerStatusBusy);
      destruct (String.eqb_spec (Status worker) WorkerStatusUnhealthy);
      cbn [negb andb]; try congruence; lia.
Qed.

(** X14: the statistics partition the listed workers.  The three status
    counters and the number of listed workers whose status is none of Idle,
    Busy and Unhealthy add up to TotalWorkers; so the counters are not
    negative, their sum never exceeds TotalWorkers, and it falls short of it
    exactly by the workers of other statuses. *)
Theorem GetWorkerStats_partition `{Ports} (r : Registry)
    (workerType : WorkerType) (w : World) (stats : WorkerStats) :
  WorkerStatusIdle <> WorkerStatusBusy ->
  WorkerStatusIdle <> WorkerStatusUnhealthy ->
  WorkerStatusBusy <> WorkerStatusUnhealthy ->
  Z.of_nat (size (kv w)) <= GoInt.max_int ->
  fst (GetWorkerStats r workerType w) = Ok stats ->
  exists workers,
    fst (ListWorkers r (mkWorkerFilter [workerType] [] false) w) = Ok workers
    /\ IdleWorkers stats + BusyWorkers stats + UnhealthyWorkers stats
       + count_other workers = TotalWorkers stats
    /\ 0 <= IdleWorkers stats
    /\ 0 <= BusyWorkers stats
    /\ 0 <= UnhealthyWorkers stats
    /\ IdleWorkers stats + BusyWorkers stats + UnhealthyWorkers stats
       <= TotalWorkers stats.
Proof.
  intros Hib Hiu Hbu Hsize.
  pose proof (ListWorkers_length r (mkWorkerFilter [workerType] [] false) w)
    as Hlen.
  unfold GetWorkerStats, bind.
  destruct (ListWorkers r (mkWorkerFilter [workerType] [] false) w)
    as [[workers | e] w'] eqn:Hrun; cbn [fst snd ret] in *; [| discriminate].
  specialize (Hlen workers eq_refl).
  intros Hstats. injection Hstats as <-. exists workers.
  split; [reflexivity |].
  assert (forall s, GoInt.wrap (0 + count_status s workers)
                    = count_status s workers) as Hcount.
  { intros s. pose proof (count_status_bounds s workers).
    apply wrap_in_range. unfold GoInt.in_range, GoInt.min_int. cbn. lia. }
  change (mkWorkerStats workerType (Z.of_nat (length workers)) 0 0 0 0)
    with (mkWorkerStats workerType (Z.of_nat (length workers)) (GoInt.wrap 0)
            (GoInt.wrap 0) (GoInt.wrap 0) (GoInt.wrap 0)).
  rewrite (GetWorkerStats_loop_spec Hib Hiu Hbu).
  cbn [StatsType TotalWorkers IdleWorkers BusyWorkers UnhealthyWorkers
       TotalPendingTasks].
  rewrite !Hcount.
  pose proof (count_status_partition workers Hib Hiu Hbu) as Hpart.
  pose proof (count_status_bounds WorkerStatusIdle workers).
  pose proof (count_status_bounds WorkerStatusBusy workers).
  pose proof (count_status_bounds WorkerStatusUnhealthy workers).
  assert (0 <= count_other workers) by (unfold count_other; lia).
  repeat split; lia.
Qed.

Lemma GetWorkerStats_partition_witness :
  Z.of_nat (size (kv statsWorld)) <= GoInt.max_int
  /\ exists stats,
       fst (GetWorkerStats NewRegistry "executor" statsWorld) = Ok stats
       /\ IdleWorkers stats + BusyWorkers stats + UnhealthyWorkers stats
          <= TotalWorkers stats.
Proof.
  assert (Z.of_nat (size (kv statsWorld)) <= GoInt.max_int) as Hsize
    by (vm_compute; discriminate).
  split; [exact Hsize |].
  exists (mkWorkerStats "executor" 3 1 1 1 7).
  assert (fst (GetWorkerStats NewRegistry "executor" statsWorld)
          = Ok (mkWorkerStats "executor" 3 1 1 1 7)) as Hrun
    by (vm_compute; reflexivity).
  split; [exact Hrun |].
  destruct (@GetWorkerStats_partition Concrete.ports NewRegistry "executor"
              statsWorld (mkWorkerStats "executor" 3 1 1 1 7)
              ltac:(discriminate) ltac:(discriminate) ltac:(discriminate)
              Hsize Hrun)
    as [workers [_ [_ [_ [_ [_ Hle]]]]]].
  exact Hle.
Defined.

(** ** CleanupStaleWorkers *)

Lemma stale_Some_inv `{Ports} timeout w key worker :
  stale timeout w key = Some worker ->
  get_fault w key = None
  /\ exists data,
       live w key = Some data
       /\ json_Unmarshal data = Ok worker
       /\ timeout < time.Sub (clock w) (LastHeartbeat worker).
Proof.
  intros Hst.
  assert (get_fault w key = None) as Hf.
  { unfold stale in Hst. now destruct (get_fault w key). }
  split; [exact Hf |]. now apply (stale_Some_iff timeout w key worker Hf).
Qed.

(** X15: whatever the transport does, the sweep only deletes, and only
    what it has read as stale.  After CleanupStaleWorkers every key holds
    what it held before, or is gone; and a key is gone only if it is a
    worker key whose record was read, decoded and found with a heartbeat
    age strictly above the timeout.  The clock is not touched. *)
Theorem CleanupStaleWorkers_only_deletes_stale `{Ports} (r : Registry)
    (timeout : time.Duration) (w : World) :
  let w' := snd (CleanupStaleWorkers r timeout w) in
  clock w' = clock w
  /\ forall key,
       kv w' !! key = kv w !! key
       \/ (kv w' !! key = None
           /\ glob (workerKeyPrefix ++ "*") key = true
           /\ get_fault w key = None
           /\ del_fault w key = None
           /\ exists data worker,
                live w key = Some data
                /\ json_Unmarshal data = Ok worker
                /\ timeout < time.Sub (clock w) (LastHeartbeat worker)).
Proof.
  cbv zeta.
  destruct (CleanupStaleWorkers_run r timeout w)
    as [[c [e0 [_ Hrun]]] | [l [Hrun _]]]; rewrite Hrun;
    cbn [snd clock kv with_logs with_kv].
  - split; [reflexivity |]. intros key. now left.
  - split; [reflexivity |]. intros key.
    fold (sweep_list timeout w). rewrite lookup_foldr_delete.
    destruct (decide (key ∈ sweep_list timeout w)) as [Hin | _]; [| now left].
    right. apply sweep_list_elem in Hin as [Hg Hs].
    unfold swept in Hs.
    destruct (stale timeout w key) as [worker |] eqn:Hst; [| discriminate].
    destruct (del_fault w key) eqn:Hdel; [discriminate |].
    apply stale_Some_inv in Hst as [Hf [data Hdata]].
    repeat (split; [first [reflexivity | assumption] |]).
    now exists data, worker.
Qed.

(** A key that is live at a later instant was live before. *)
Lemma live_earlier (w : World) (t : time.Time) (key data : string) :
  clock w <= t ->
  live (with_clock w t) key = Some data ->
  live w key = Some data.
Proof.
  intros Ht. unfold live. cbn [kv clock with_clock].
  destruct (kv w !! key) as [en |]; [| discriminate].
  destruct (Z.ltb_spec t (expires en)); [| discriminate].
  intros Hl. destruct (Z.ltb_spec (clock w) (expires en)); [exact Hl | lia].
Qed.

(** What a key reads as at instant [t] after a sweep on a healthy
    transport: nothing if the sweep took it, and what it read as before the
    sweep otherwise. *)
Lemma live_after_sweep `{Ports} timeout w l t key :
  live (with_clock
          (with_logs (with_kv w (foldr delete (kv w) (sweep_list timeout w))) l)
          t) key
  = if decide (key ∈ sweep_list timeout w) then None
    else live (with_clock w t) key.
Proof.
  unfold live. cbn [kv clock with_clock with_logs with_kv].
  rewrite lookup_foldr_delete.
  now destruct (decide (key ∈ sweep_list timeout w)).
Qed.

(** The keys a second sweep at instant [t] deletes: those expired at [t]
    that the first sweep did not take. *)
Lemma sweep_list_later `{Ports} timeout w l t key :
  (forall k, get_fault w k = None) ->
  (forall k, del_fault w k = None) ->
  key ∈ sweep_list timeout
          (with_clock
             (with_logs
                (with_kv w (foldr delete (kv w) (sweep_list timeout w))) l) t)
  <-> expired timeout (with_clock w t) key /\ key ∉ sweep_list timeout w.
Proof.
  intros Hget Hdel.
  set (w1 := with_clock _ t).
  assert (forall k, get_fault w1 k = None) as Hget1 by exact Hget.
  assert (forall k, del_fault w1 k = None) as Hdel1 by exact Hdel.
  rewrite (sweep_list_expired timeout w1 key Hget1 Hdel1).
  unfold expired. change (clock w1) with t.
  change (clock (with_clock w t)) with t.
  unfold w1. clear w1 Hget1 Hdel1. split.
  - intros [data [worker [Hg [Hl [Hd Hage]]]]].
    rewrite live_after_sweep in Hl.
    destruct (decide (key ∈ sweep_list timeout w)) as [| Hnot];
      [discriminate |].
    split; [| exact Hnot]. now exists data, worker.
  - intros [[data [worker [Hg [Hl [Hd Hage]]]]] Hnot].
    exists data, worker. rewrite live_after_sweep.
    destruct (decide (key ∈ sweep_list timeout w)); [contradiction |].
    now repeat split.
Qed.

(** X16: a later sweep takes only what has gone stale since.  On a healthy
    transport, a second CleanupStaleWorkers with the same timeout, run at
    any instant [t] from the first one on with no write in between, reports
    no error; every key it removes held a record that the first sweep found
    with a heartbeat age within the timeout and whose age at [t] exceeds it;
    and what the first sweep removed is still gone.  When no record has gone
    stale in between, the second sweep returns a count of 0 and leaves the
    key space as the first left it. *)
Theorem CleanupStaleWorkers_second_sweep `{Ports} (r : Registry)
    (timeout : time.Duration) (w : World) (t : time.Time) :
  (forall c, scan_fault w c = None) ->
  (forall k, get_fault w k = None) ->
  (forall k, del_fault w k = None) ->
  clock w <= t ->
  let w1 := with_clock (snd (CleanupStaleWorkers r timeout w)) t in
  let second := CleanupStaleWorkers r timeout w1 in
  snd (fst second) = None
  /\ (forall key,
        kv (snd second) !! key = kv w1 !! key
        \/ (kv (snd second) !! key = None
            /\ exists data worker,
                 live w key = Some data
                 /\ json_Unmarshal data = Ok worker
                 /\ time.Sub (clock w) (LastHeartbeat worker) <= timeout
                 /\ timeout < time.Sub t (LastHeartbeat worker)))
  /\ (forall key, expired timeout w key -> kv (snd second) !! key = None)
  /\ ((forall key,
         expired timeout (with_clock w t) key -> expired timeout w key) ->
      fst second = (0, None) /\ kv (snd second) = kv w1).
Proof.
  intros Hscan Hget Hdel Ht. cbv zeta.
  destruct (CleanupStaleWorkers_run r timeout w)
    as [[c [e0 [Hc _]]] | [l [Hrun _]]];
    [rewrite Hscan in Hc; discriminate |].
  rewrite Hrun. cbn [snd]. fold (sweep_list timeout w).
  set (w1 := with_clock
               (with_logs
                  (with_kv w (foldr delete (kv w) (sweep_list timeout w)))
                  (logs w ++ l)) t).
  assert (forall key,
            key ∈ sweep_list timeout w1
            <-> expired timeout (with_clock w t) key
                /\ key ∉ sweep_list timeout w) as Hlater
    by (intros key; apply (sweep_list_later timeout w _ t key Hget Hdel)).
  assert (forall key, kv w1 !! key
                      = if decide (key ∈ sweep_list timeout w) then None
                        else kv w !! key) as Hkv1
    by (intros key; unfold w1; cbn [kv with_clock with_logs with_kv];
        apply lookup_foldr_delete).
  destruct (CleanupStaleWorkers_run r timeout w1)
    as [[c [e0 [Hc _]]] | [l' [Hrun' _]]];
    [change (scan_fault w1 c) with (scan_fault w c) in Hc;
     rewrite Hscan in Hc; discriminate |].
  rewrite Hrun'. fold (sweep_list timeout w1).
  cbn [fst snd kv with_logs with_kv].
  split; [reflexivity |]. split; [| split].
  - intros key. rewrite lookup_foldr_delete.
    destruct (decide (key ∈ sweep_list timeout w1)) as [Hin | _];
      [| now left].
    right. split; [reflexivity |].
    apply Hlater in Hin as [[data [worker [Hg [Hl [Hd Hage]]]]] Hnot].
    change (clock (with_clock w t)) with t in Hage.
    apply (live_earlier w t key data Ht) in Hl.
    exists data, worker.
    split; [exact Hl |]. split; [exact Hd |]. split; [| exact Hage].
    destruct (Z.le_gt_cases (time.Sub (clock w) (LastHeartbeat worker)) timeout)
      as [Hle | Hgt]; [exact Hle |].
    exfalso. apply Hnot. apply (sweep_list_expired timeout w key Hget Hdel).
    exists data, worker. repeat split; [exact Hg | exact Hl | exact Hd | lia].
  - intros key Hexp.
    apply (sweep_list_expired timeout w key Hget Hdel) in Hexp.
    rewrite lookup_foldr_delete.
    destruct (decide (key ∈ sweep_list timeout w1)); [reflexivity |].
    rewrite Hkv1.
    destruct (decide (key ∈ sweep_list timeout w)); [reflexivity |].
    contradiction.
  - intros Hnone.
    assert (sweep_list timeout w1 = []) as ->.
    { apply elem_of_nil_inv. intros key Hin.
      apply Hlater in Hin as [Hexp Hnot]. apply Hnot.
      apply (sweep_list_expired timeout w key Hget Hdel). now apply Hnone. }
    split; reflexivity.
Qed.

Lemma CleanupStaleWorkers_second_sweep_witness :
  let timeout := 30 * time.Second in
  let first := CleanupStaleWorkers NewRegistry timeout sweepWorld in
  let later := with_clock (snd first) (102 * time.Second) in
  let second := CleanupStaleWorkers NewRegistry timeout later in
  clock sweepWorld <= 102 * time.Second
  /\ fst first = (1, None)
  /\ kv (snd first) !! getWorkerKey "X" = kv sweepWorld !! getWorkerKey "X"
  /\ fst (fst second) = 1
  /\ snd (fst second) = None
  /\ kv (snd second) !! getWorkerKey "X" = None
  /\ kv (snd second) !! getWorkerKey "Y" = None.
Proof.
  cbv zeta.
  assert (clock sweepWorld <= 102 * time.Second) as Ht
    by (vm_compute; discriminate).
  split; [exact Ht |]. split; [vm_compute; reflexivity |].
  split; [vm_compute; reflexivity |]. split; [vm_compute; reflexivity |].
  destruct (@CleanupStaleWorkers_second_sweep Concrete.ports NewRegistry
              (30 * time.Second) sweepWorld (102 * time.Second)
              (fun _ => eq_refl) (fun _ => eq_refl) (fun _ => eq_refl) Ht)
    as [Herr [_ [Hgone _]]].
  split; [exact Herr |]. split; [vm_compute; reflexivity |].
  apply Hgone.
  exists "Y;executor;idle;50000000000;69000000000;;0"%string, exampleY.
  split; [reflexivity |]. split; [vm_compute; reflexivity |].
  split; [vm_compute; reflexivity | vm_compute; reflexivity].
Defined.

(** X17: what survives a sweep was within the timeout when the sweep ran.
    On a healthy transport, a record that GetWorker returns at any instant
    [t] from a CleanupStaleWorkers on, with no write in between, is the
    decoding of what the store held before the sweep, had a heartbeat age of
    at most the timeout when the sweep ran, and comes back as it is stored
    unless its age at [t] exceeds ttl, when its status reads Unhealthy. *)
Theorem CleanupStaleWorkers_survivors_fresh `{Ports} (r : Registry)
    (timeout : time.Duration) (w : World) (workerID : string)
    (got : WorkerInfo) (t : time.Time) :
  (forall c, scan_fault w c = None) ->
  (forall k, get_fault w k = None) ->
  (forall k, del_fault w k = None) ->
  clock w <= t ->
  let w1 := with_clock (snd (CleanupStaleWorkers r timeout w)) t in
  fst (GetWorker r workerID w1) = Ok got ->
  time.Sub (clock w) (LastHeartbeat got) <= timeout
  /\ exists data stored,
       live w (getWorkerKey workerID) = Some data
       /\ json_Unmarshal data = Ok stored
       /\ (time.Sub t (LastHeartbeat stored) <= ttl r -> got = stored)
       /\ (ttl r < time.Sub t (LastHeartbeat stored) ->
           got = set_Status stored WorkerStatusUnhealthy).
Proof.
  intros Hscan Hget Hdel Ht. cbv zeta.
  destruct (CleanupStaleWorkers_run r timeout w)
    as [[c [e0 [Hc _]]] | [l [Hrun _]]];
    [rewrite Hscan in Hc; discriminate |].
  rewrite Hrun. cbn [snd]. fold (sweep_list timeout w).
  intros Hgot.
  apply GetWorker_Ok_inv in Hgot as [_ [data [stored [Hl [Hd ->]]]]].
  rewrite live_after_sweep in Hl.
  destruct (decide (getWorkerKey workerID ∈ sweep_list timeout w))
    as [| Hnot]; [discriminate |].
  apply (live_earlier w t _ data Ht) in Hl.
  cbn [clock with_clock]. rewrite recomputed_LastHeartbeat.
  split.
  - destruct (Z.le_gt_cases (time.Sub (clock w) (LastHeartbeat stored)) timeout)
      as [Hle | Hgt]; [exact Hle |].
    exfalso. apply Hnot.
    apply (sweep_list_expired timeout w _ Hget Hdel).
    exists data, stored.
    split; [apply glob_getWorkerKey |]. split; [exact Hl |].
    split; [exact Hd | lia].
  - exists data, stored. split; [exact Hl |]. split; [exact Hd |].
    unfold recomputed.
    destruct (Z.ltb_spec (ttl r) (time.Sub t (LastHeartbeat stored)));
      split; intros; first [reflexivity | lia].
Qed.

Lemma CleanupStaleWorkers_survivors_fresh_witness :
  let timeout := 30 * time.Second in
  let swept := snd (CleanupStaleWorkers NewRegistry timeout sweepWorld) in
  let w1 := with_clock swept (102 * time.Second) in
  clock sweepWorld <= 102 * time.Second
  /\ fst (GetWorker NewRegistry "X" w1) = Ok (set_Status exampleX "unhealthy")
  /\ time.Sub (clock sweepWorld) (LastHeartbeat exampleX) <= timeout.
Proof.
  cbv zeta.
  assert (clock sweepWorld <= 102 * time.Second) as Ht
    by (vm_compute; discriminate).
  assert (fst (GetWorker NewRegistry "X"
                 (with_clock
                    (snd (CleanupStaleWorkers NewRegistry (30 * time.Second)
                            sweepWorld))
                    (102 * time.Second)))
          = Ok (set_Status exampleX "unhealthy")) as Hget
    by (vm_compute; reflexivity).
  split; [exact Ht |]. split; [exact Hget |].
  destruct (@CleanupStaleWorkers_survivors_fresh Concrete.ports NewRegistry
              (30 * time.Second) sweepWorld "X"
              (set_Status exampleX "unhealthy") (102 * time.Second)
              (fun _ => eq_refl) (fun _ => eq_refl) (fun _ => eq_refl) Ht Hget)
    as [Hage _].
  exact Hage.
Defined.

(** ** The helpers *)

(** X18: scanKeys follows the cursor to the end.  It never changes the
    world; the only error it returns is the one a SCAN call reported,
    unwrapped; and when no SCAN fails it returns, however many pages that
    takes, the live keys matching the pattern: every one of them, and no
    other key. *)
Theorem scanKeys_complete (pattern : string) (w : World) :
  snd (scanKeys pattern w) = w
  /\ (forall e,
        fst (scanKeys pattern w) = Err e ->
        exists c, scan_fault w c = Some e)
  /\ ((forall c, scan_fault w c = None) ->
      exists keys,
        fst (scanKeys pattern w) = Ok keys
        /\ forall key,
             key ∈ keys <-> glob pattern key = true /\ is_Some (live w key)).
Proof.
  destruct (scanKeys_spec pattern w) as [res [Hrun [Hres Hok]]].
  rewrite Hrun. cbn [fst snd]. split; [reflexivity |]. split.
  - intros e ->. destruct Hres as [Habs | [c [e' [Hc He]]]]; [discriminate |].
    injection He as ->. now exists c.
  - intros Hscan. exists (scan_view w pattern).
    split; [now apply Hok |].
    intros key. apply scan_view_elem.
Qed.

(** Two and a half pages of keys: all 250 come back. *)
Example scanKeys_three_pages :
  match fst (scanKeys (workerKeyPrefix ++ "*") (manyWorkers 250)) with
  | Ok keys => length keys
  | Err _ => 0%nat
  end = 250%nat.
Proof. vm_compute. reflexivity. Qed.

(** X19: the pending count of a worker is that of the first consumer
    carrying its name, and 0 when no consumer does. *)
Theorem findPending_first_match (consumers : list XInfoConsumer)
    (workerID : string) :
  (forall pre consumer post,
      consumers = (pre ++ consumer :: post)%list ->
      Name consumer = workerID ->
      (forall c, In c pre -> Name c <> workerID) ->
      findPending consumers workerID = Pending consumer)
  /\ ((forall c, In c consumers -> Name c <> workerID) ->
      findPending consumers workerID = 0).
Proof.
  split.
  - intros pre consumer post -> Hname Hpre.
    induction pre as [| c pre IH]; cbn [app findPending].
    + destruct (String.eqb_spec (Name consumer) workerID); [reflexivity |].
      contradiction.
    + destruct (String.eqb_spec (Name c) workerID) as [Heq | _].
      * exfalso. apply (Hpre c); [now left | exact Heq].
      * apply IH. intros c' Hin. apply Hpre. now right.
  - induction consumers as [| c rest IH]; intros Hnone; [reflexivity |].
    cbn [findPending].
    destruct (String.eqb_spec (Name c) workerID) as [Heq | _].
    + exfalso. apply (Hnone c); [now left | exact Heq].
    + apply IH. intros c' Hin. apply Hnone. now right.
Qed.

(** X20: the pending-task query only reads, and its answer is decided by
    XINFO CONSUMERS on the stream of the worker's type, the executor stream
    for an Executor and the router stream for a Router: the pending count of
    the first consumer carrying the worker's id, or 0 when there is none; 0
    again when XINFO fails with an error whose message mentions NOGROUP; and
    any other error of XINFO as it is.  A type that is neither Executor nor
    Router gives 0 without asking. *)
Theorem getPendingTasksForWorker_errors `{Ports} (workerID : string)
    (workerType : WorkerType) (w : World) :
  let res := fst (getPendingTasksForWorker workerID workerType w) in
  let answer (stream group : string) : Result Z :=
    match xinfo w stream group with
    | Ok consumers => Ok (findPending consumers workerID)
    | Err e => if Contains (Error e) "NOGROUP" then Ok 0 else Err e
    end in
  snd (getPendingTasksForWorker workerID workerType w) = w
  /\ (workerType = WorkerTypeExecutor ->
      res = answer executorStreamKey executorConsumerGroup)
  /\ (workerType <> WorkerTypeExecutor -> workerType = WorkerTypeRouter ->
      res = answer routerStreamKey routerConsumerGroup)
  /\ (workerType <> WorkerTypeExecutor -> workerType <> WorkerTypeRouter ->
      res = Ok 0)
  /\ (forall e,
        res = Err e ->
        Contains (Error e) "NOGROUP" = false
        /\ ((workerType = WorkerTypeExecutor
             /\ xinfo w executorStreamKey executorConsumerGroup = Err e)
            \/ (workerType = WorkerTypeRouter
                /\ xinfo w routerStreamKey routerConsumerGroup = Err e))).
Proof.
  cbv zeta. split; [| split; [| split; [| split]]].
  - rewrite getPendingTasksForWorker_run. reflexivity.
  - intros ->.
    unfold getPendingTasksForWorker, bind, client_XInfoConsumers, ret.
    rewrite String.eqb_refl.
    destruct (xinfo w executorStreamKey executorConsumerGroup) as [cs | e];
      [reflexivity |].
    now destruct (Contains (Error e) "NOGROUP").
  - intros Hne ->.
    unfold getPendingTasksForWorker, bind, client_XInfoConsumers, ret.
    destruct (String.eqb_spec WorkerTypeRouter WorkerTypeExecutor);
      [contradiction |].
    rewrite String.eqb_refl.
    destruct (xinfo w routerStreamKey routerConsumerGroup) as [cs | e];
      [reflexivity |].
    now destruct (Contains (Error e) "NOGROUP").
  - intros Hne Hnr. unfold getPendingTasksForWorker.
    destruct (String.eqb_spec workerType WorkerTypeExecutor); [contradiction |].
    destruct (String.eqb_spec workerType WorkerTypeRouter); [contradiction |].
    reflexivity.
  - intros e.
    unfold getPendingTasksForWorker, bind, client_XInfoConsumers, ret.
    destruct (String.eqb_spec workerType WorkerTypeExecutor) as [Hex | _].
    + destruct (xinfo w executorStreamKey executorConsumerGroup)
        as [cs | e0] eqn:Hx; [discriminate |].
      destruct (Contains (Error e0) "NOGROUP") eqn:Hc; [discriminate |].
      cbn [fst]. intros He. injection He as <-.
      split; [exact Hc |]. left. now split.
    + destruct (String.eqb_spec workerType WorkerTypeRouter) as [Hro | _];
        [| discriminate].
      destruct (xinfo w routerStreamKey routerConsumerGroup)
        as [cs | e0] eqn:Hx; [discriminate |].
      destruct (Contains (Error e0) "NOGROUP") eqn:Hc; [discriminate |].
      cbn [fst]. intros He. injection He as <-.
      split; [exact Hc |]. right. now split.
Qed.

(** The queue of the example world: 4 pending tasks for the Executor A, the
    connection error for any Router, and 0 where the group does not exist,
    for a Router as for an Executor. *)
Example getPendingTasksForWorker_on_queueWorld :
  fst (getPendingTasksForWorker "A" "executor" queueWorld) = Ok 4
  /\ fst (getPendingTasksForWorker "Z" "executor" queueWorld) = Ok 0
  /\ fst (getPendingTasksForWorker "B" "router" queueWorld)
     = Err (errorString "read tcp: connection reset")
  /\ fst (getPendingTasksForWorker "B" "router" exampleWorld) = Ok 0
  /\ fst (getPendingTasksForWorker "A" "executor" exampleWorld) = Ok 0
  /\ fst (getPendingTasksForWorker "A" "gpu" queueWorld) = Ok 0.
Proof. evaluate. Qed.
